(** * System health monitor: change-gated reporting of host posture

    A shallow embedding of [utility/main.py] (class [SystemHealthMonitor])
    and the properties its specification states about it.

    Conventions of the embedding.
    - Python dictionaries are finite maps ([gmap]) keyed by strings.
    - A probe result is [option bool]: [Some true] is Python [True]
      (Compliant), [Some false] is [False] (NonCompliant) and [None] is
      Python [None] (Unknown).
    - Everything the program asks its surroundings (the platform name, the
      outcome of an external command, the answer of the HTTP endpoint, the
      files on disk) is read from an explicit [Host] or [Disk] value, so the
      theorems quantify over every behaviour of the surroundings.
    - Exceptions are values of [exn]; code that can raise returns a
      [result].  The classes listed are subclasses of Python's [Exception];
      process-level signals (KeyboardInterrupt, SystemExit) end the process
      and are outside the model. *)

From Stdlib Require Import ZArith Ascii Lia.
From stdpp Require Import base gmap strings list fin_maps.

Open Scope Z_scope.

(** ** Python string operations used by the probes *)

Module PyStr.

(** [str.isspace] on the code points below 256. *)
Definition is_space (c : ascii) : bool :=
  let n := nat_of_ascii c in
  ((9 <=? n) && (n <=? 13))%nat || ((28 <=? n) && (n <=? 32))%nat
  || (n =? 133)%nat || (n =? 160)%nat.

Fixpoint starts_with (p s : string) : bool :=
  match p, s with
  | EmptyString, _ => true
  | String _ _, EmptyString => false
  | String a p', String b s' => if decide (a = b) then starts_with p' s' else false
  end.

(** [needle in hay]. *)
Fixpoint contains (needle hay : string) : bool :=
  if starts_with needle hay then true
  else match hay with
       | EmptyString => false
       | String _ t => contains needle t
       end.

(** [s.split('\n')]: never empty, the empty string gives [['']]. *)
Fixpoint split_lines (s : string) : list string :=
  match s with
  | EmptyString => [EmptyString]
  | String c t =>
      if decide (c = "010"%char) then EmptyString :: split_lines t
      else match split_lines t with
           | l :: ls => String c l :: ls
           | [] => [String c EmptyString]
           end
  end.

(** [s.split()]: maximal runs of non-blank characters. *)
Fixpoint split (s : string) : list string :=
  match s with
  | EmptyString => []
  | String c t =>
      if is_space c then split t
      else match t with
           | EmptyString => [String c EmptyString]
           | String c' _ =>
               if is_space c' then String c EmptyString :: split t
               else match split t with
                    | w :: ws => String c w :: ws
                    | [] => [String c EmptyString]
                    end
           end
  end.

Fixpoint lstrip (s : string) : string :=
  match s with
  | EmptyString => EmptyString
  | String c t => if is_space c then lstrip t else s
  end.

Fixpoint rstrip (s : string) : string :=
  match s with
  | EmptyString => EmptyString
  | String c t =>
      match rstrip t with
      | EmptyString => if is_space c then EmptyString else String c EmptyString
      | t' => String c t'
      end
  end.

(** [s.strip()]. *)
Definition strip (s : string) : string := rstrip (lstrip s).

(** Truthiness of a string: non-empty. *)
Definition truthy (s : string) : bool :=
  match s with EmptyString => false | String _ _ => true end.

(** [parts.index(x)]: position of the first element equal to [x]. *)
Fixpoint index (x : string) (parts : list string) : option nat :=
  match parts with
  | [] => None
  | p :: ps => if decide (p = x) then Some 0%nat else S <$> index x ps
  end.

End PyStr.

(** ** Exceptions and results *)

Inductive exn : Type :=
  | FileNotFoundError
  | PermissionError
  | OSError
  | KeyError
  | CalledProcessError          (* subprocess, raised by check=True *)
  | TimeoutExpired              (* subprocess, raised by timeout=  *)
  | ValueError
  | IndexError
  | AttributeError
  | OverflowError
  | ConnectionError             (* requests.exceptions.ConnectionError *)
  | OtherException (name : string).

Global Instance exn_eq_dec : EqDecision exn.
Proof. solve_decision. Defined.

(** [isinstance(e, subprocess.SubprocessError)]; [TimeoutExpired] and
    [CalledProcessError] are its two subclasses. *)
Definition is_SubprocessError (e : exn) : bool :=
  match e with
  | CalledProcessError | TimeoutExpired => true
  | _ => false
  end.

Definition is_ConnectionError (e : exn) : bool :=
  match e with ConnectionError => true | _ => false end.

Inductive result (A : Type) : Type :=
  | Ok (a : A)
  | Raise (e : exn).
Arguments Ok {A} a.
Arguments Raise {A} e.

Definition is_ok {A} (r : result A) : bool :=
  match r with Ok _ => true | Raise _ => false end.

(** ** Reports as Python values *)

(** A probe outcome: Python [True], [False] or [None]. *)
Abbreviation tri := (option bool).
Abbreviation Compliant := (Some true).
Abbreviation NonCompliant := (Some false).
Abbreviation Unknown := (@None bool).

(** The values stored in a report dictionary: strings, and the nested
    [checks] dictionary. *)
Inductive value : Type :=
  | VStr (s : string)
  | VDict (d : gmap string tri).

Global Instance value_eq_dec : EqDecision value.
Proof. solve_decision. Defined.

Abbreviation dict := (gmap string value).

(** Python's [a != b] on these values: dictionaries compare by key set and
    by value, [None], [True] and [False] are pairwise different, and a
    string never equals a dictionary. *)
Definition py_ne (a b : value) : bool := negb (bool_decide (a = b)).

(** [d.get(k, {})]. *)
Definition get_or_empty (k : string) (d : dict) : value :=
  default (VDict ∅) (d !! k).

(** [not d] for a dictionary. *)
Definition py_not (d : dict) : bool := bool_decide (d = ∅).

(** The four recognised check names. *)
Definition check_names : list string :=
  ["disk_encryption"; "os_updated"; "antivirus_active"; "sleep_settings_ok"].

(** The dictionary literal of [collect_system_data]. *)
Definition checks_literal (de ou av sl : tri) : gmap string tri :=
  <["disk_encryption" := de]>
    (<["os_updated" := ou]>
       (<["antivirus_active" := av]>
          (<["sleep_settings_ok" := sl]> ∅))).

Definition report_literal (machine_id timestamp os_name os_version : string)
    (checks : gmap string tri) : dict :=
  <["machine_id" := VStr machine_id]>
    (<["timestamp" := VStr timestamp]>
       (<["os_name" := VStr os_name]>
          (<["os_version" := VStr os_version]>
             (<["checks" := VDict checks]> ∅)))).

(** ** The change gate *)

(** [should_report(self, current_data)]; [last_report] is the attribute
    [self.last_report]. *)
Definition should_report (last_report current_data : dict) : bool :=
  if py_not last_report then true
  else
    let current_checks := get_or_empty "checks" current_data in
    let last_checks := get_or_empty "checks" last_report in
    py_ne current_checks last_checks.

(** ** Built-in conversions and the clock

    [int(s)], [float(s)] and [time.sleep] belong to the Python runtime,
    not to this program; the embedding takes them as an interface.
    [None] stands for the [ValueError] the conversions raise on text that
    is not a number. *)

Class PyBuiltins : Type := {
  py_int : string → option Z;
  pyfloat : Type;
  py_float : string → option pyfloat;
  (** [x <= n] for a float [x] and an integer literal [n] *)
  float_le : pyfloat → Z → bool;
  (** the longest sleep, in seconds, that fits the clock of the runtime
      (9223372036 where the clock counts nanoseconds in 64 bits) *)
  sleep_max : Z;
}.

(** Why [time.sleep(seconds)] raises for an integer [seconds], if it
    does: the length is first converted to the clock's unit
    ([OverflowError] when it does not fit), then a negative length is
    refused ([ValueError]).  [None]: the call sleeps and returns. *)
Definition time_sleep_error `{PyBuiltins} (seconds : Z) : option exn :=
  if (seconds <? - sleep_max) || (sleep_max <? seconds) then Some OverflowError
  else if seconds <? 0 then Some ValueError
  else None.

(** ** The host: every answer the program gets from outside *)

(** [subprocess.CompletedProcess] *)
Record completed : Type := { returncode : Z; stdout : string }.

(** [requests.Response] *)
Record response : Type := { status_code : Z; text : string }.

Record Host : Type := {
  platform_system : string;                       (* platform.system() *)
  platform_version : string;                      (* platform.version() *)
  now_isoformat : string;                         (* datetime.now().isoformat() *)
  (** spawning the command: it completes, or the spawn raises *)
  spawn : list string → result completed;
  (** requests.post(url, json=..., headers=...) *)
  http_post : string → dict → list (string * string) → result response;
}.

(** [subprocess.run(cmd, capture_output=True, ...)]; with [check=True] a
    non-zero exit status raises [CalledProcessError]. *)
Definition subprocess_run (h : Host) (cmd : list string) (check : bool)
    : result completed :=
  match spawn h cmd with
  | Ok c => if check && negb (returncode c =? 0) then Raise CalledProcessError
            else Ok c
  | Raise e => Raise e
  end.

(** ** Logging *)

Inductive level : Type := INFO | ERROR.

Global Instance level_eq_dec : EqDecision level.
Proof. solve_decision. Defined.

(** A log record: its level and the constant part of its message. *)
Abbreviation log_entry := (level * string)%type.

(** ** Computations that log and may raise (the probes) *)

Definition W (A : Type) : Type := (result A * list log_entry)%type.

Definition w_ret {A} (a : A) : W A := (Ok a, []).

Definition w_raise {A} (e : exn) : W A := (Raise e, []).

Definition w_bind {A B} (m : W A) (k : A → W B) : W B :=
  match m with
  | (Ok a, l) => let '(r, l') := k a in (r, l ++ l')
  | (Raise e, l) => (Raise e, l)
  end.

(** [try: m  except Exception as e: handler e] *)
Definition w_try {A} (m : W A) (handler : exn → W A) : W A :=
  match m with
  | (Ok a, l) => (Ok a, l)
  | (Raise e, l) => let '(r, l') := handler e in (r, l ++ l')
  end.

(** [try: m  except <classes>: handler]: only exceptions of the listed
    classes are caught. *)
Definition w_try_if {A} (catches : exn → bool) (m : W A) (handler : exn → W A)
    : W A :=
  match m with
  | (Ok a, l) => (Ok a, l)
  | (Raise e, l) =>
      if catches e then let '(r, l') := handler e in (r, l ++ l')
      else (Raise e, l)
  end.

Definition w_lift {A} (r : result A) : W A := (r, []).

(** [self.logger.error(msg)] *)
Definition w_error (msg : string) : W unit := (Ok tt, [(ERROR, msg)]).

Declare Scope w_scope.
Delimit Scope w_scope with W.
Notation "'do' x <- m ; k" := (w_bind m (fun x => k))
  (at level 10, x name, m at level 100, k at level 200) : w_scope.
Notation "'do' ' pat <- m ; k" := (w_bind m (fun x => match x with pat => k end))
  (at level 10, pat pattern, m at level 100, k at level 200) : w_scope.

(** [int(s)] and [float(s)] as raising computations *)
Definition w_int `{PyBuiltins} (s : string) : W Z :=
  match py_int s with Some n => w_ret n | None => w_raise ValueError end.

Definition w_float `{PyBuiltins} (s : string) : W pyfloat :=
  match py_float s with Some x => w_ret x | None => w_raise ValueError end.

(** [l[i]] *)
Definition w_item (l : list string) (i : nat) : W string :=
  match l !! i with Some x => w_ret x | None => w_raise IndexError end.

(** [l.index(x)] *)
Definition w_index (x : string) (l : list string) : W nat :=
  match PyStr.index x l with Some i => w_ret i | None => w_raise ValueError end.

(** ** The probe set *)

Section Probes.
Context `{PyBuiltins}.
Variable h : Host.

Local Open Scope w_scope.

(** [subprocess.run] inside a probe *)
Definition run (cmd : list string) : W completed :=
  w_lift (subprocess_run h cmd false).

Definition run_checked (cmd : list string) : W completed :=
  w_lift (subprocess_run h cmd true).

Definition check_disk_encryption : W tri :=
  let system := platform_system h in
  if decide (system = "Darwin") then
    w_try
      (do result <- run ["diskutil"; "apfs"; "list"];
       w_ret (Some (PyStr.contains "Encrypted" (stdout result))))
      (fun e =>
         do _ <- w_error "Failed to check disk encryption on macOS";
         w_ret None)
  else if decide (system = "Windows") then
    w_try
      (do result <- run ["manage-bde"; "-status"];
       w_ret (Some (PyStr.contains "Protection On" (stdout result))))
      (fun e =>
         do _ <- w_error "Failed to check disk encryption on Windows";
         w_ret None)
  else if decide (system = "Linux") then
    w_try
      (do result <- run ["lsblk"; "-f"];
       w_ret (Some (PyStr.contains "LUKS" (stdout result)
                    || PyStr.contains "crypto" (stdout result))))
      (fun e =>
         do _ <- w_error "Failed to check disk encryption on Linux";
         w_ret None)
  else w_ret None.

Definition windows_update_cmd : list string :=
  ["powershell"; "-Command";
   "(New-Object -ComObject Microsoft.Update.AutoUpdate).Results.UpdateCount -eq 0"].

Definition check_os_updates : W tri :=
  let system := platform_system h in
  if decide (system = "Darwin") then
    w_try
      (do result <- run ["softwareupdate"; "-l"];
       w_ret (Some (PyStr.contains "No new software available" (stdout result))))
      (fun e =>
         do _ <- w_error "Failed to check OS updates on macOS";
         w_ret None)
  else if decide (system = "Windows") then
    w_try
      (do result <- run windows_update_cmd;
       w_ret (Some (PyStr.contains "True" (stdout result))))
      (fun e =>
         do _ <- w_error "Failed to check OS updates on Windows";
         w_ret None)
  else if decide (system = "Linux") then
    w_try
      (w_try_if is_SubprocessError
         (do _ <- run_checked ["apt-get"; "update"; "-qq"];
          do result <- run_checked ["apt-get"; "-s"; "upgrade"];
          w_ret (Some (PyStr.contains "0 upgraded, 0 newly installed"
                         (stdout result))))
         (fun _ =>
            do result <- run ["yum"; "check-update"; "--quiet"];
            w_ret (Some (returncode result =? 0))))
      (fun e =>
         do _ <- w_error "Failed to check OS updates on Linux";
         w_ret None)
  else w_ret None.

Definition windows_defender_cmd : list string :=
  ["powershell"; "-Command";
   "Get-MpComputerStatus | Select-Object AntivirusEnabled -ExpandProperty AntivirusEnabled"].

Definition windows_av_product_cmd : list string :=
  ["powershell"; "-Command";
   "Get-WmiObject -Namespace root/SecurityCenter2 -Class AntiVirusProduct | ForEach-Object { $_.displayName }"].

Definition av_checks : list (list string) :=
  [ ["clamav"; "--version"];
    ["freshclam"; "--version"];
    ["rkhunter"; "--version"];
    ["chkrootkit"; "--version"] ].

(** The [for cmd in av_checks] loop: the first command that exits with
    status 0 returns [True]; a command that raises is skipped by the bare
    [except: continue]; [False] after the loop. *)
Fixpoint av_loop (cmds : list (list string)) : W tri :=
  match cmds with
  | [] => w_ret (Some false)
  | cmd :: rest =>
      do found <- w_try
                    (do result <- run cmd;
                     w_ret (returncode result =? 0))
                    (fun _ => w_ret false);
      if found then w_ret (Some true) else av_loop rest
  end.

Definition check_antivirus : W tri :=
  let system := platform_system h in
  if decide (system = "Darwin") then w_ret (Some true)
  else if decide (system = "Windows") then
    w_try
      (do result <- run windows_defender_cmd;
       if PyStr.contains "True" (stdout result) then w_ret (Some true)
       else
         do result <- run windows_av_product_cmd;
         w_ret (Some (0 <? Z.of_nat (String.length (PyStr.strip (stdout result))))))
      (fun e =>
         do _ <- w_error "Failed to check antivirus on Windows";
         w_ret None)
  else if decide (system = "Linux") then
    w_try (av_loop av_checks)
      (fun e =>
         do _ <- w_error "Failed to check antivirus on Linux";
         w_ret None)
  else w_ret None.

(** The loop over the lines of [pmset -g]: the first line mentioning
    [displaysleep] decides; [False] when there is none. *)
Fixpoint pmset_scan (lines : list string) : W tri :=
  match lines with
  | [] => w_ret (Some false)
  | line :: rest =>
      if PyStr.contains "displaysleep" line then
        do field <- w_item (PyStr.split line) 1;
        do minutes <- w_int field;
        w_ret (Some (minutes <=? 10))
      else pmset_scan rest
  end.

Definition windows_sleep_cmd : list string :=
  ["powershell"; "-Command";
   "(Get-ItemProperty -Path 'HKLM:\SYSTEM\CurrentControlSet\Control\Power\PowerSettings\238C9FA8-0AAD-41ED-83F4-97BE242C8F20\7bc4a2f9-d8fc-4469-b07b-33eb785aaca0' -Name 'ACSettingIndex').ACSettingIndex / 60"].

Definition gsettings_cmd : list string :=
  ["gsettings"; "get"; "org.gnome.settings-daemon.plugins.power";
   "sleep-inactive-ac-timeout"].

(** The first [try] of the Linux branch.  [Some v] means the block
    executed [return v]; [None] means control falls through to the next
    statement (also after [except Exception: pass]). *)
Definition gsettings_block : W (option tri) :=
  w_try
    (do result <- run gsettings_cmd;
     if returncode result =? 0 then
       do seconds <- w_int (PyStr.strip (stdout result));
       w_ret (Some (Some (seconds <=? 600)))
     else w_ret None)
    (fun _ => w_ret None).

(** The loop over the lines of [xset q]. *)
Fixpoint xset_scan (lines : list string) : W (option tri) :=
  match lines with
  | [] => w_ret None
  | line :: rest =>
      if PyStr.contains "timeout:" line && PyStr.contains "DPMS is" line then
        let parts := PyStr.split line in
        do i <- w_index "timeout:" parts;
        let timeout_index := (i + 1)%nat in
        if (timeout_index <? length parts)%nat then
          do field <- w_item parts timeout_index;
          do seconds <- w_int field;
          w_ret (Some (Some (seconds <=? 600)))
        else xset_scan rest
      else xset_scan rest
  end.

Definition xset_block : W (option tri) :=
  w_try
    (do result <- run ["xset"; "q"];
     xset_scan (PyStr.split_lines (stdout result)))
    (fun e =>
       do _ <- w_error "Failed to check sleep settings on Linux";
       w_ret None).

Definition check_sleep_settings : W tri :=
  let system := platform_system h in
  if decide (system = "Darwin") then
    w_try
      (do result <- run ["pmset"; "-g"];
       pmset_scan (PyStr.split_lines (stdout result)))
      (fun e =>
         do _ <- w_error "Failed to check sleep settings on macOS";
         w_ret None)
  else if decide (system = "Windows") then
    w_try
      (do result <- run windows_sleep_cmd;
       if PyStr.truthy (PyStr.strip (stdout result)) then
         do minutes <- w_float (PyStr.strip (stdout result));
         w_ret (Some (float_le minutes 10))
       else w_ret (Some false))
      (fun e =>
         do _ <- w_error "Failed to check sleep settings on Windows";
         w_ret None)
  else if decide (system = "Linux") then
    do r <- gsettings_block;
    match r with
    | Some v => w_ret v
    | None =>
        do r' <- xset_block;
        match r' with
        | Some v => w_ret v
        | None => w_ret None
        end
    end
  else w_ret None.

End Probes.

(** ** The monitor object and its methods *)

(** What the program does to the outside world, in order. *)
Inductive effect : Type :=
  | EvPost (url : string) (payload : dict)     (* requests.post *)
  | EvSleep (seconds : Z).                     (* time.sleep *)

Global Instance effect_eq_dec : EqDecision effect.
Proof. solve_decision. Defined.

(** The attributes of [self] after [__init__], together with the records
    written through [self.logger] and the effects performed so far. *)
Record Monitor : Type := {
  api_endpoint : string;
  check_interval : Z;
  machine_id : string;
  last_report : dict;
  logged : list log_entry;
  effects : list effect;
}.

Definition set_last_report (d : dict) (s : Monitor) : Monitor :=
  {| api_endpoint := api_endpoint s; check_interval := check_interval s;
     machine_id := machine_id s; last_report := d;
     logged := logged s; effects := effects s |}.

Definition add_logged (l : list log_entry) (s : Monitor) : Monitor :=
  {| api_endpoint := api_endpoint s; check_interval := check_interval s;
     machine_id := machine_id s; last_report := last_report s;
     logged := logged s ++ l; effects := effects s |}.

Definition add_effect (ev : effect) (s : Monitor) : Monitor :=
  {| api_endpoint := api_endpoint s; check_interval := check_interval s;
     machine_id := machine_id s; last_report := last_report s;
     logged := logged s; effects := effects s ++ [ev] |}.

(** Methods: they read and update [self] and may raise. *)
Definition M (A : Type) : Type := Monitor → result A * Monitor.

Definition m_ret {A} (a : A) : M A := fun s => (Ok a, s).

Definition m_bind {A B} (m : M A) (k : A → M B) : M B :=
  fun s =>
    match m s with
    | (Ok a, s') => k a s'
    | (Raise e, s') => (Raise e, s')
    end.

(** [try: m  except Exception as e: handler e]; what [m] did to [self]
    before raising stays done. *)
Definition m_try {A} (m : M A) (handler : exn → M A) : M A :=
  fun s =>
    match m s with
    | (Ok a, s') => (Ok a, s')
    | (Raise e, s') => handler e s'
    end.

Definition m_get {A} (f : Monitor → A) : M A := fun s => (Ok (f s), s).

Definition m_lift_result {A} (r : result A) : M A := fun s => (r, s).

(** Running a probe: its log records are appended to the logger's. *)
Definition m_probe {A} (p : W A) : M A := fun s => (fst p, add_logged (snd p) s).

Definition logger_info (msg : string) : M unit :=
  fun s => (Ok tt, add_logged [(INFO, msg)] s).

Definition logger_error (msg : string) : M unit :=
  fun s => (Ok tt, add_logged [(ERROR, msg)] s).

Definition m_effect (ev : effect) : M unit := fun s => (Ok tt, add_effect ev s).

Declare Scope m_scope.
Delimit Scope m_scope with M.
Notation "'do' x <- m ; k" := (m_bind m (fun x => k))
  (at level 10, x name, m at level 100, k at level 200) : m_scope.

Section Methods.
Context `{PyBuiltins}.

Local Open Scope m_scope.

Definition collect_system_data (h : Host) : M dict :=
  do _ <- logger_info "Collecting system health data...";
  do mid <- m_get machine_id;
  let timestamp := now_isoformat h in
  let os_name := platform_system h in
  let os_version := platform_version h in
  do de <- m_probe (check_disk_encryption h);
  do ou <- m_probe (check_os_updates h);
  do av <- m_probe (check_antivirus h);
  do sl <- m_probe (check_sleep_settings h);
  m_ret (report_literal mid timestamp os_name os_version
           (checks_literal de ou av sl)).

(** The method [should_report]: the gate applied to [self.last_report]. *)
Definition should_report_m (current_data : dict) : M bool :=
  do last <- m_get last_report;
  m_ret (should_report last current_data).

Definition request_headers (h : Host) : list (string * string) :=
  [("Content-Type", "application/json");
   ("User-Agent", "SystemHealthMonitor/" +:+ platform_system h)].

(** [requests.post(self.api_endpoint, json=data, headers=headers)] *)
Definition requests_post (h : Host) (data : dict) : M response :=
  do url <- m_get api_endpoint;
  do _ <- m_effect (EvPost url data);
  m_lift_result (http_post h url data (request_headers h)).

Definition send_report (h : Host) (data : dict) : M bool :=
  m_try
    (do _ <- logger_info "Sending report to API";
     do _ <- logger_info "Request headers";
     do _ <- logger_info "Request data";
     do resp <- requests_post h data;
     do _ <- logger_info "API response";
     if status_code resp =? 200 then
       do _ <- logger_info "Successfully reported to API";
       do _ <- (fun s => (Ok tt, set_last_report data s));
       m_ret true
     else
       do _ <- logger_error "Failed to report to API";
       m_ret false)
    (fun e =>
       if is_ConnectionError e then
         do _ <- logger_error "Connection error while reporting to API";
         m_ret false
       else
         do _ <- logger_error "Exception while reporting to API";
         m_ret false).

(** The body of the [try] in [run_periodic_check]: one checking cycle. *)
Definition check_cycle (h : Host) : M unit :=
  do current_data <- collect_system_data h;
  do go <- should_report_m current_data;
  if go then
    do _ <- logger_info "Changes detected, sending report";
    do _ <- send_report h current_data;
    m_ret tt
  else logger_info "No changes detected, skipping report".

(** [time.sleep(seconds)]: the sleep is recorded as an effect when the
    call returns; when the runtime refuses the length the call raises and
    nothing was slept. *)
Definition time_sleep (seconds : Z) : M unit :=
  match time_sleep_error seconds with
  | Some e => m_lift_result (Raise e)
  | None => m_effect (EvSleep seconds)
  end.

(** One turn of the [while True] loop around an arbitrary [try] body:
    whatever the body raises is logged; the sleep that follows stands
    outside the [try], so what it raises leaves the turn. *)
Definition periodic_iteration (body : M unit) : M unit :=
  do _ <- m_try body (fun e => logger_error "Error in periodic check");
  do interval <- m_get check_interval;
  time_sleep interval.

(** The loop unrolled over a list of bodies, one per turn; a turn that
    raises ends it. *)
Fixpoint periodic_loop (bodies : list (M unit)) : M unit :=
  match bodies with
  | [] => m_ret tt
  | body :: rest => do _ <- periodic_iteration body; periodic_loop rest
  end.

(** [run_periodic_check]: the loop has no exit; [hosts] gives what the
    surroundings answer during each successive turn, and the function
    runs the first [length hosts] turns. *)
Definition run_periodic_check (hosts : list Host) : M unit :=
  periodic_loop (check_cycle <$> hosts).

(** [start]: an ungated first report at [h0], then the periodic loop
    (run by the background thread while the main thread only sleeps). *)
Definition start (h0 : Host) (hosts : list Host) : M unit :=
  do _ <- logger_info "Starting System Health Monitor";
  do _ <- logger_info "Using API endpoint";
  do _ <- logger_info "Machine ID";
  do _ <- logger_info "Check interval";
  do _ <- m_try
            (do current_data <- collect_system_data h0;
             do _ <- send_report h0 current_data;
             m_ret tt)
            (fun e => logger_error "Error in initial check");
  run_periodic_check hosts.

End Methods.

(** ** The identity store and [__init__] *)

Inductive node : Type :=
  | File (contents : string)
  | Dir.

Global Instance node_eq_dec : EqDecision node.
Proof. solve_decision. Defined.

(** The part of the operating system [_get_machine_id] and
    [_setup_logging] talk to.  [os.path] is the path module of the running
    platform, so its functions are fields of the environment. *)
Record IdEnv : Type := {
  id_system : string;                              (* platform.system() *)
  environ : gmap string string;                    (* os.environ *)
  expanduser_home : string;                        (* os.path.expanduser("~") *)
  path_join : string → list string → string;       (* os.path.join(a, *rest) *)
  path_dirname : string → string;                  (* os.path.dirname *)
  module_dir : string;      (* os.path.dirname(os.path.abspath(__file__)) *)
  uuid4_str : nat → string;           (* the n-th value of str(uuid.uuid4()) *)
  makedirs_error : string → option exn;     (* why os.makedirs(p) would fail *)
  open_read_error : string → option exn;    (* why open(p, 'r') would fail *)
  open_write_error : string → option exn;   (* why open(p, 'w') would fail *)
  open_append_error : string → option exn;  (* why open(p, 'a') would fail *)
}.

(** The mutable surroundings of the identity store: the file system, how
    many UUIDs were drawn, and what reached the log. *)
Record Disk : Type := {
  nodes : gmap string node;
  uuids_drawn : nat;
  id_logged : list log_entry;
}.

Definition IO (A : Type) : Type := Disk → result A * Disk.

Definition i_ret {A} (a : A) : IO A := fun d => (Ok a, d).

Definition i_raise {A} (e : exn) : IO A := fun d => (Raise e, d).

Definition i_lift {A} (r : result A) : IO A := fun d => (r, d).

Definition i_bind {A B} (m : IO A) (k : A → IO B) : IO B :=
  fun d =>
    match m d with
    | (Ok a, d') => k a d'
    | (Raise e, d') => (Raise e, d')
    end.

Definition i_try {A} (m : IO A) (handler : exn → IO A) : IO A :=
  fun d =>
    match m d with
    | (Ok a, d') => (Ok a, d')
    | (Raise e, d') => handler e d'
    end.

Declare Scope i_scope.
Delimit Scope i_scope with I.
Notation "'do' x <- m ; k" := (i_bind m (fun x => k))
  (at level 10, x name, m at level 100, k at level 200) : i_scope.

Section Identity.
Variable env : IdEnv.

Local Open Scope i_scope.

(** [os.path.exists(p)] *)
Definition path_exists (p : string) : IO bool :=
  fun d => (Ok (bool_decide (is_Some (nodes d !! p))), d).

(** [os.makedirs(p)] *)
Definition makedirs (p : string) : IO unit :=
  fun d =>
    match makedirs_error env p with
    | Some e => (Raise e, d)
    | None =>
        (Ok tt, {| nodes := <[p := Dir]> (nodes d);
                   uuids_drawn := uuids_drawn d;
                   id_logged := id_logged d |})
    end.

(** [with open(p, 'r') as f: f.read()] *)
Definition read_file (p : string) : IO string :=
  fun d =>
    match open_read_error env p with
    | Some e => (Raise e, d)
    | None =>
        match nodes d !! p with
        | Some (File c) => (Ok c, d)
        | Some Dir => (Raise OSError, d)          (* IsADirectoryError *)
        | None => (Raise FileNotFoundError, d)
        end
    end.

(** [with open(p, 'w') as f: f.write(c)]; the failure taken into account
    is that of [open], which leaves the disk as it was. *)
Definition write_file (p c : string) : IO unit :=
  fun d =>
    match open_write_error env p with
    | Some e => (Raise e, d)
    | None =>
        match nodes d !! p with
        | Some Dir => (Raise OSError, d)          (* IsADirectoryError *)
        | _ =>
            (Ok tt, {| nodes := <[p := File c]> (nodes d);
                       uuids_drawn := uuids_drawn d;
                       id_logged := id_logged d |})
        end
    end.

(** [logging.FileHandler(p)]: opens [p] for appending, creating it. *)
Definition file_handler (p : string) : IO unit :=
  fun d =>
    match open_append_error env p with
    | Some e => (Raise e, d)
    | None =>
        match nodes d !! p with
        | Some Dir => (Raise OSError, d)
        | Some (File _) => (Ok tt, d)
        | None =>
            (Ok tt, {| nodes := <[p := File EmptyString]> (nodes d);
                       uuids_drawn := uuids_drawn d;
                       id_logged := id_logged d |})
        end
    end.

(** [str(uuid.uuid4())] *)
Definition uuid4 : IO string :=
  fun d =>
    (Ok (uuid4_str env (uuids_drawn d)),
     {| nodes := nodes d; uuids_drawn := S (uuids_drawn d);
        id_logged := id_logged d |}).

(** [os.environ[k]] *)
Definition environ_get (k : string) : result string :=
  match environ env !! k with
  | Some v => Ok v
  | None => Raise KeyError
  end.

(** [self.logger.error(msg)] on an object whose attribute [logger] may
    not have been assigned yet: reading a missing attribute raises
    [AttributeError]. *)
Definition self_logger_error (has_logger : bool) (msg : string) : IO unit :=
  fun d =>
    if has_logger then
      (Ok tt, {| nodes := nodes d; uuids_drawn := uuids_drawn d;
                 id_logged := id_logged d ++ [(ERROR, msg)] |})
    else (Raise AttributeError, d).

(** The path of the identity file; looking up [LOCALAPPDATA] may raise
    [KeyError]. *)
Definition id_file_path : result string :=
  if decide (id_system env = "Windows") then
    match environ_get "LOCALAPPDATA" with
    | Ok base => Ok (path_join env base ["SystemHealthMonitor"; ".machine_id"])
    | Raise e => Raise e
    end
  else
    Ok (path_join env (expanduser_home env) [".system_health_id"]).

(** [_get_machine_id(self)]; [has_logger] tells whether [self.logger]
    exists when the method runs. *)
Definition _get_machine_id (has_logger : bool) : IO string :=
  do id_file <- i_lift id_file_path;
  let id_dir := path_dirname env id_file in
  do dir_there <- path_exists id_dir;
  do _ <- (if negb dir_there then makedirs id_dir else i_ret tt);
  do file_there <- path_exists id_file;
  if file_there then
    do contents <- read_file id_file;
    i_ret (PyStr.strip contents)
  else
    do machine_id <- uuid4;
    do _ <- i_try (write_file id_file machine_id)
              (fun e => self_logger_error has_logger "Failed to save machine ID");
    i_ret machine_id.

Definition _setup_logging : IO unit :=
  let logs_dir := path_join env (module_dir env) ["logs"] in
  do there <- path_exists logs_dir;
  do _ <- (if negb there then makedirs logs_dir else i_ret tt);
  let log_file := path_join env logs_dir ["health_monitor.log"] in
  file_handler log_file.

(** [SystemHealthMonitor.__init__]: the attributes are assigned in
    source order, so [_get_machine_id] runs before [self.logger]
    exists. *)
Definition init (api_endpoint : string) (check_interval : Z) : IO Monitor :=
  do machine_id <- _get_machine_id false;
  let last_report : dict := ∅ in
  do _ <- _setup_logging;
  i_ret {| api_endpoint := api_endpoint; check_interval := check_interval;
           machine_id := machine_id; last_report := last_report;
           logged := []; effects := [] |}.

(** [n] successive calls of [_get_machine_id], collecting the values. *)
Fixpoint get_machine_id_times (has_logger : bool) (n : nat) (d : Disk)
    : list (result string) * Disk :=
  match n with
  | O => ([], d)
  | S n' =>
      let '(r, d') := _get_machine_id has_logger d in
      let '(rs, d'') := get_machine_id_times has_logger n' d' in
      (r :: rs, d'')
  end.

End Identity.

(** ** Concrete reports, hosts and disks used as test inputs *)

Definition all_compliant : gmap string tri :=
  checks_literal Compliant Compliant Compliant Compliant.

Definition report_a : dict :=
  report_literal "id-1" "2024-05-01T10:00:00" "Linux" "5.15" all_compliant.

(** [report_a] observed later, the disk no longer encrypted. *)
Definition report_b : dict :=
  report_literal "id-1" "2024-05-01T10:15:00" "Linux" "5.15"
    (checks_literal NonCompliant Compliant Compliant Compliant).

(** Same posture as [report_a], every other field different. *)
Definition report_c : dict :=
  report_literal "id-2" "2024-05-02T08:00:00" "Darwin" "23.4.0" all_compliant.

(** ** Observations used to state the properties *)

(** The value a probe returns, read off its outcome. *)
Definition probe_value (p : W tri) : tri :=
  match fst p with
  | Ok v => v
  | Raise _ => None
  end.

(** The posture of a host: what the four probes return on it. *)
Definition posture `{PyBuiltins} (h : Host) : gmap string tri :=
  checks_literal (probe_value (check_disk_encryption h))
                 (probe_value (check_os_updates h))
                 (probe_value (check_antivirus h))
                 (probe_value (check_sleep_settings h)).

(** A computation that returns normally. *)
Definition w_ok {A} (p : W A) : Prop := is_ok (fst p) = true.

(** The platform names the probes recognise. *)
Definition recognized (system : string) : Prop :=
  system = "Darwin" ∨ system = "Windows" ∨ system = "Linux".

(** No external command can be run on [h]: spawning raises. *)
Definition no_command_runs (h : Host) : Prop :=
  ∀ cmd, ∃ e, spawn h cmd = Raise e.

(** The answer [requests.post] gets for [data] in state [s]. *)
Definition endpoint_answer (h : Host) (s : Monitor) (data : dict)
    : result response :=
  http_post h (api_endpoint s) data (request_headers h).

(** The endpoint acknowledges with status 200. *)
Definition acknowledged (r : result response) : bool :=
  match r with
  | Ok resp => status_code resp =? 200
  | Raise _ => false
  end.

(** The delivery attempts among the effects, in order. *)
Definition posts (evs : list effect) : list (string * dict) :=
  omap (fun ev => match ev with EvPost url d => Some (url, d) | _ => None end) evs.

(** The sleeps among the effects, in order. *)
Definition sleeps (evs : list effect) : list Z :=
  omap (fun ev => match ev with EvSleep n => Some n | _ => None end) evs.

(** Spawning [cmd] on [h] raises (the program is missing, may not be
    executed, ...). *)
Definition spawn_raises (h : Host) (cmd : list string) : Prop :=
  ∃ e, spawn h cmd = Raise e.

(** The commands whose failure to run decides each probe. *)
Definition disk_encryption_cmds : list (list string) :=
  [ ["diskutil"; "apfs"; "list"]; ["manage-bde"; "-status"]; ["lsblk"; "-f"] ].

Definition os_updates_cmds : list (list string) :=
  [ ["softwareupdate"; "-l"]; windows_update_cmd;
    ["apt-get"; "update"; "-qq"]; ["yum"; "check-update"; "--quiet"] ].

Definition sleep_settings_cmds : list (list string) :=
  [ ["pmset"; "-g"]; windows_sleep_cmd; gsettings_cmd; ["xset"; "q"] ].

(** The line of [pmset -g] the macOS branch reads: the first one that
    mentions [displaysleep]. *)
Definition displaysleep_line (out : string) : option string :=
  List.find (PyStr.contains "displaysleep") (PyStr.split_lines out).

(** The lines of [xset q] the Linux branch looks at. *)
Definition is_dpms_line (line : string) : bool :=
  PyStr.contains "timeout:" line && PyStr.contains "DPMS is" line.

(** A stand-in for [int] and [float] that reads plain decimal numerals
    (surrounding blanks allowed); it only serves to run the model on the
    concrete inputs below. *)
Definition digit_value (c : ascii) : option Z :=
  let n := nat_of_ascii c in
  if ((48 <=? n) && (n <=? 57))%nat then Some (Z.of_nat (n - 48)) else None.

Fixpoint parse_digits (acc : Z) (s : string) : option Z :=
  match s with
  | EmptyString => Some acc
  | String c t =>
      match digit_value c with
      | Some d => parse_digits (10 * acc + d) t
      | None => None
      end
  end.

Definition decimal_int (s : string) : option Z :=
  match PyStr.strip s with
  | EmptyString => None
  | t => parse_digits 0 t
  end.

Definition decimal_builtins : PyBuiltins :=
  {| py_int := decimal_int; pyfloat := Z; py_float := decimal_int;
     float_le := Z.leb; sleep_max := 9223372036 |}.

(** A host of an unsupported platform with no tools and no network. *)
Definition freebsd_host : Host :=
  {| platform_system := "FreeBSD"; platform_version := "14.0";
     now_isoformat := "2024-05-01T10:00:00";
     spawn := fun _ => Raise FileNotFoundError;
     http_post := fun _ _ _ => Raise ConnectionError |}.

(** A Linux host on which none of the external tools is installed and
    whose collector answers 500. *)
Definition linux_bare : Host :=
  {| platform_system := "Linux"; platform_version := "5.15";
     now_isoformat := "2024-05-01T10:00:00";
     spawn := fun _ => Raise FileNotFoundError;
     http_post := fun _ _ _ => Ok {| status_code := 500; text := "error" |} |}.

(** The same host a quarter of an hour later. *)
Definition linux_bare_later : Host :=
  {| platform_system := "Linux"; platform_version := "5.15";
     now_isoformat := "2024-05-01T10:15:00";
     spawn := fun _ => Raise FileNotFoundError;
     http_post := fun _ _ _ => Ok {| status_code := 500; text := "error" |} |}.

(** A Mac whose [pmset -g] prints a [displaysleep] line with a value that
    is not a number, and (second host) no such line at all. *)
Definition mac_odd_pmset : Host :=
  {| platform_system := "Darwin"; platform_version := "23.4.0";
     now_isoformat := "2024-05-01T10:00:00";
     spawn := fun _ => Ok {| returncode := 0; stdout := " displaysleep never" |};
     http_post := fun _ _ _ => Raise ConnectionError |}.

(** A monitor as [__init__] leaves it. *)
Definition monitor0 : Monitor :=
  {| api_endpoint := "http://localhost:3000/api/health-reports";
     check_interval := 900; machine_id := "id-1"; last_report := ∅;
     logged := []; effects := [] |}.

(** The same monitor started with [--interval -1]. *)
Definition monitor_negative_interval : Monitor :=
  {| api_endpoint := "http://localhost:3000/api/health-reports";
     check_interval := -1; machine_id := "id-1"; last_report := ∅;
     logged := []; effects := [] |}.

(** A Windows machine on which spawning any program is refused. *)
Definition windows_locked : Host :=
  {| platform_system := "Windows"; platform_version := "10.0.19045";
     now_isoformat := "2024-05-01T10:00:00";
     spawn := fun _ => Raise PermissionError;
     http_post := fun _ _ _ => Raise ConnectionError |}.

(** A Windows machine whose PowerShell prints text that is not a number. *)
Definition windows_odd : Host :=
  {| platform_system := "Windows"; platform_version := "10.0.19045";
     now_isoformat := "2024-05-01T10:00:00";
     spawn := fun _ => Ok {| returncode := 0; stdout := "n/a" |};
     http_post := fun _ _ _ => Raise ConnectionError |}.

(** A Linux machine without a display: every tool runs, exits with
    status 1 and prints a complaint. *)
Definition linux_headless : Host :=
  {| platform_system := "Linux"; platform_version := "5.15";
     now_isoformat := "2024-05-01T10:00:00";
     spawn := fun _ => Ok {| returncode := 1; stdout := "unable to open display" |};
     http_post := fun _ _ _ => Raise ConnectionError |}.

(** The report [collect_system_data] builds on host [h] in state [s]. *)
Definition report_of `{PyBuiltins} (s : Monitor) (h : Host) : dict :=
  report_literal (machine_id s) (now_isoformat h) (platform_system h)
    (platform_version h) (posture h).

(** [time.sleep] accepts the interval of [s]. *)
Definition sleepable `{PyBuiltins} (s : Monitor) : Prop :=
  time_sleep_error (check_interval s) = None.

(** The configuration attributes, which no method assigns. *)
Definition same_config (s s' : Monitor) : Prop :=
  api_endpoint s' = api_endpoint s
  ∧ check_interval s' = check_interval s
  ∧ machine_id s' = machine_id s.

(** A loop body that leaves the sleeps performed so far and the interval
    alone, whether it returns or raises. *)
Definition keeps_schedule (body : M unit) : Prop :=
  ∀ s, sleeps (effects (snd (body s))) = sleeps (effects s)
       ∧ check_interval (snd (body s)) = check_interval s.

(** A cycle that does part of its work and then raises [e]. *)
Definition interrupted (work : M unit) (e : exn) : M unit :=
  m_bind work (fun _ => m_lift_result (Raise e)).

(** The endpoint of [h] never acknowledges: it answers with another
    status than 200, or the request raises. *)
Definition never_acknowledges (h : Host) : Prop :=
  ∀ url d hdrs, acknowledged (http_post h url d hdrs) = false.

(** A Linux host whose collector acknowledges with status 200. *)
Definition linux_acknowledged : Host :=
  {| platform_system := "Linux"; platform_version := "5.15";
     now_isoformat := "2024-05-01T10:00:00";
     spawn := fun _ => Raise FileNotFoundError;
     http_post := fun _ _ _ => Ok {| status_code := 200; text := "ok" |} |}.

(** A simplified POSIX [os.path] for the sample environments: components
    are joined with a slash and [dirname] cuts at the last slash. *)
Definition simple_join (a : string) (rest : list string) : string :=
  fold_left (fun acc x => acc +:+ "/" +:+ x) rest a.

Fixpoint cut_last_slash (s : string) : option string :=
  match s with
  | EmptyString => None
  | String c t =>
      match cut_last_slash t with
      | Some d => Some (String c d)
      | None => if decide (c = "/"%char) then Some EmptyString else None
      end
  end.

Definition simple_dirname (s : string) : string :=
  default EmptyString (cut_last_slash s).

Definition sample_uuid (n : nat) : string :=
  match n with
  | O => "6f1c2a9e-58b4-4c1d-9d67-0a3e5b7c8d21"
  | _ => "b0e4d3f7-1a2c-4e5f-8a9b-c6d7e8f90123"
  end.

(** A Linux account in good order. *)
Definition env_ok : IdEnv :=
  {| id_system := "Linux"; environ := ∅; expanduser_home := "/home/alice";
     path_join := simple_join; path_dirname := simple_dirname;
     module_dir := "/opt/monitor"; uuid4_str := sample_uuid;
     makedirs_error := fun _ => None; open_read_error := fun _ => None;
     open_write_error := fun _ => None; open_append_error := fun _ => None |}.

(** The same account with a home directory that cannot be written. *)
Definition env_readonly_home : IdEnv :=
  {| id_system := "Linux"; environ := ∅; expanduser_home := "/home/alice";
     path_join := simple_join; path_dirname := simple_dirname;
     module_dir := "/opt/monitor"; uuid4_str := sample_uuid;
     makedirs_error := fun _ => None; open_read_error := fun _ => None;
     open_write_error := fun _ => Some PermissionError;
     open_append_error := fun _ => None |}.

(** First run: the home directory exists, the identity file does not. *)
Definition disk_first_run : Disk :=
  {| nodes := <["/home/alice" := Dir]> (<["/opt/monitor" := Dir]> ∅);
     uuids_drawn := 0; id_logged := [] |}.

(** A later run: the identity file is there. *)
Definition stored_id : string :=
  "6f1c2a9e-58b4-4c1d-9d67-0a3e5b7c8d21" +:+ String "010"%char EmptyString.

Definition disk_with_id : Disk :=
  {| nodes := <["/home/alice/.system_health_id" := File stored_id]>
                (<["/home/alice" := Dir]> (<["/opt/monitor" := Dir]> ∅));
     uuids_drawn := 0; id_logged := [] |}.

(** ** The command-line entry point *)

(** A value read from the JSON configuration file. *)
Inductive jval : Type :=
  | JStr (s : string)
  | JInt (n : Z)
  | JBool (b : bool)
  | JNull
  | JOther.                 (* a float, an array or a nested object *)

Global Instance jval_eq_dec : EqDecision jval.
Proof. solve_decision. Defined.

(** What [json.load] returned: an object, or another JSON document. *)
Inductive json_doc : Type :=
  | JObject (fields : gmap string jval)
  | JNotObject.

(** The parsed command line: [--api], [--interval] (an [int]) and
    [--once]. *)
Record Args : Type := {
  arg_api : option string;
  arg_interval : option Z;
  arg_once : bool;
}.

(** The configuration file as the program finds it: absent, or there and
    read with a given outcome of [open] and [json.load]. *)
Inductive config_file : Type :=
  | ConfigAbsent
  | ConfigPresent (loaded : result json_doc).

(** The [try] that loads the configuration: [config] stays [{}] when the
    file is absent or loading raises; the second component tells whether
    the error line was printed. *)
Definition load_config (f : config_file) : json_doc * bool :=
  match f with
  | ConfigAbsent => (JObject ∅, false)
  | ConfigPresent (Ok doc) => (doc, false)
  | ConfigPresent (Raise _) => (JObject ∅, true)
  end.

(** [config.get(key, default)]; a document that is no object has no
    [get]. *)
Definition config_get (config : json_doc) (key : string) (default : jval)
    : result jval :=
  match config with
  | JObject fields => Ok (from_option id default (fields !! key))
  | JNotObject => Raise AttributeError
  end.

(** Truthiness of the two command-line values. *)
Definition api_truthy (a : option string) : bool :=
  match a with Some s => PyStr.truthy s | None => false end.

Definition interval_truthy (i : option Z) : bool :=
  match i with Some n => negb (n =? 0) | None => false end.

Definition default_api_endpoint : string :=
  "http://localhost:3000/api/health-reports".

(** The two assignments [api_endpoint = args.api or config.get(...)] and
    [check_interval = args.interval or config.get(...)], in source order;
    [or] evaluates its right operand only when the left one is falsy. *)
Definition resolve_settings (args : Args) (f : config_file)
    : result (jval * jval) :=
  let config := fst (load_config f) in
  match (if api_truthy (arg_api args)
         then Ok (JStr (default EmptyString (arg_api args)))
         else config_get config "api_endpoint" (JStr default_api_endpoint)) with
  | Raise e => Raise e
  | Ok api_endpoint =>
      match (if interval_truthy (arg_interval args)
             then Ok (JInt (default 0 (arg_interval args)))
             else config_get config "check_interval" (JInt 900)) with
      | Raise e => Raise e
      | Ok check_interval => Ok (api_endpoint, check_interval)
      end
  end.

(** The [--once] branch: one report, sent without asking the gate; the
    result is the process exit status. *)
Definition run_once `{PyBuiltins} (h : Host) : M Z :=
  m_bind (collect_system_data h) (fun data =>
  m_bind (send_report h data) (fun success =>
  m_ret (if success then 0 else 1))).

(** ** Further observations *)

(** The number of [ERROR] records in a piece of log. *)
Definition count_errors (l : list log_entry) : nat :=
  length (omap (fun r : log_entry =>
                  match fst r with ERROR => Some r | INFO => None end) l).

(** A probe outcome in which nothing was logged. *)
Definition silent {A} (p : W A) : Prop := snd p = [].

(** What a probe may leave behind: its answer, and either no log record
    or, with the answer [None], one [ERROR] record. *)
Definition tidy (p : W tri) : Prop :=
  ∃ v l, p = (Ok v, l)
         ∧ (l = [] ∨ (v = Unknown ∧ ∃ msg, l = [(ERROR, msg)])).

(** A Mac whose [pmset -g] prints [out]. *)
Definition mac_with_pmset (out : string) : Host :=
  {| platform_system := "Darwin"; platform_version := "23.4.0";
     now_isoformat := "2024-05-01T10:00:00";
     spawn := fun _ => Ok {| returncode := 0; stdout := out |};
     http_post := fun _ _ _ => Raise ConnectionError |}.

(** A GNOME desktop: every tool exits with 0 and prints [out]; the
    collector answers with [status]. *)
Definition gnome_desktop (out : string) (status : Z) : Host :=
  {| platform_system := "Linux"; platform_version := "6.1";
     now_isoformat := "2024-05-01T10:00:00";
     spawn := fun _ => Ok {| returncode := 0; stdout := out |};
     http_post := fun _ _ _ => Ok {| status_code := status; text := "ok" |} |}.

(** The baseline is well formed: empty, or a report this monitor built on
    some host. *)
Definition baseline_ok `{PyBuiltins} (s : Monitor) : Prop :=
  last_report s = ∅ ∨ ∃ h, last_report s = report_of s h.

(** A Windows account whose environment has no [LOCALAPPDATA]. *)
Definition env_windows_bare : IdEnv :=
  {| id_system := "Windows"; environ := <["USERNAME" := "alice"]> ∅;
     expanduser_home := "C:/Users/alice";
     path_join := simple_join; path_dirname := simple_dirname;
     module_dir := "C:/monitor"; uuid4_str := sample_uuid;
     makedirs_error := fun _ => None; open_read_error := fun _ => None;
     open_write_error := fun _ => None; open_append_error := fun _ => None |}.

(** A Linux account whose identity file cannot be opened for reading. *)
Definition env_unreadable_id : IdEnv :=
  {| id_system := "Linux"; environ := ∅; expanduser_home := "/home/alice";
     path_join := simple_join; path_dirname := simple_dirname;
     module_dir := "/opt/monitor"; uuid4_str := sample_uuid;
     makedirs_error := fun _ => None;
     open_read_error := fun _ => Some PermissionError;
     open_write_error := fun _ => None; open_append_error := fun _ => None |}.

(** The two paths [_setup_logging] works with. *)
Definition logs_dir (env : IdEnv) : string :=
  path_join env (module_dir env) ["logs"].

Definition log_file (env : IdEnv) : string :=
  path_join env (logs_dir env) ["health_monitor.log"].

(** A Windows machine on which every tool exits with [rc] and prints
    [out]. *)
Definition windows_with_output (out : string) (rc : Z) : Host :=
  {| platform_system := "Windows"; platform_version := "10.0.19045";
     now_isoformat := "2024-05-01T10:00:00";
     spawn := fun _ => Ok {| returncode := rc; stdout := out |};
     http_post := fun _ _ _ => Raise ConnectionError |}.

(** * Properties *)

(** ** The change gate *)

Lemma report_literal_checks mid ts osn osv ch :
  get_or_empty "checks" (report_literal mid ts osn osv ch) = VDict ch.
Proof. reflexivity. Qed.

Lemma report_literal_not_empty mid ts osn osv ch :
  py_not (report_literal mid ts osn osv ch) = false.
Proof.
  unfold py_not. apply bool_decide_eq_false. intros Heq.
  apply (f_equal (fun m : dict => m !! "checks")) in Heq.
  discriminate Heq.
Qed.

Lemma py_not_true (d : dict) : py_not d = true ↔ d = ∅.
Proof. unfold py_not. apply bool_decide_eq_true. Qed.

Lemma py_ne_true (a b : value) : py_ne a b = true ↔ a ≠ b.
Proof.
  unfold py_ne. rewrite negb_true_iff. apply bool_decide_eq_false.
Qed.

Lemma should_report_absent (cand : dict) : should_report ∅ cand = true.
Proof. reflexivity. Qed.

Lemma should_report_present (base cand : dict) :
  py_not base = false →
  should_report base cand
  = py_ne (get_or_empty "checks" cand) (get_or_empty "checks" base).
Proof. intros Hb. unfold should_report. rewrite Hb. reflexivity. Qed.

(** C1. The gate answers true when there is no baseline (the empty
    dictionary [self.last_report] starts as); with a baseline it answers
    true exactly when the two [checks] mappings differ.  Hence a report
    compared with itself is not re-sent, a change of [timestamp] or
    [os_version] alone is not a change, and a different value for one
    check is. *)
Theorem should_report_spec :
  (∀ cand : dict, should_report ∅ cand = true)
  ∧ (∀ base cand : dict,
       py_not base = false →
       (should_report base cand = true
        ↔ get_or_empty "checks" cand ≠ get_or_empty "checks" base))
  ∧ (∀ mid ts osn osv ch,
       should_report (report_literal mid ts osn osv ch)
                     (report_literal mid ts osn osv ch) = false)
  ∧ (∀ mid ts osn osv ch ts' osv',
       should_report (report_literal mid ts osn osv ch)
                     (report_literal mid ts' osn osv' ch) = false)
  ∧ (∀ mid ts osn osv (ch : gmap string tri) (k : string) (old new : tri),
       ch !! k = Some old → new ≠ old →
       should_report (report_literal mid ts osn osv ch)
                     (report_literal mid ts osn osv (<[k := new]> ch)) = true).
Proof.
  split; [exact should_report_absent|].
  split.
  { intros base cand Hb. rewrite (should_report_present _ _ Hb).
    apply py_ne_true. }
  assert (Hsame : ∀ mid ts osn osv ch ts' osv',
             should_report (report_literal mid ts osn osv ch)
                           (report_literal mid ts' osn osv' ch) = false).
  { intros. rewrite should_report_present by apply report_literal_not_empty.
    rewrite !report_literal_checks. unfold py_ne.
    rewrite bool_decide_eq_true_2; reflexivity. }
  split; [intros; apply Hsame|].
  split; [exact Hsame|].
  intros mid ts osn osv ch k old new Hk Hne.
  rewrite should_report_present by apply report_literal_not_empty.
  rewrite !report_literal_checks. apply py_ne_true.
  intros Heq. injection Heq as Heq.
  apply (f_equal (fun m : gmap string tri => m !! k)) in Heq.
  rewrite lookup_insert_eq, Hk in Heq. congruence.
Qed.

(** C10. The gate reads nothing but the two [checks] entries: candidates
    with equal [checks] get the same answer against any baseline, present
    baselines with equal [checks] give the same answer to any candidate,
    and two reports that differ in [machine_id], [timestamp], [os_name]
    or [os_version] only are indistinguishable on either side. *)
Theorem should_report_reads_only_checks :
  (∀ base c1 c2 : dict,
     get_or_empty "checks" c1 = get_or_empty "checks" c2 →
     should_report base c1 = should_report base c2)
  ∧ (∀ b1 b2 cand : dict,
       py_not b1 = false → py_not b2 = false →
       get_or_empty "checks" b1 = get_or_empty "checks" b2 →
       should_report b1 cand = should_report b2 cand)
  ∧ (∀ (base : dict) mid ts osn osv mid' ts' osn' osv' ch,
       should_report base (report_literal mid ts osn osv ch)
       = should_report base (report_literal mid' ts' osn' osv' ch))
  ∧ (∀ (cand : dict) mid ts osn osv mid' ts' osn' osv' ch,
       should_report (report_literal mid ts osn osv ch) cand
       = should_report (report_literal mid' ts' osn' osv' ch) cand).
Proof.
  split; [|split; [|split]].
  - intros base c1 c2 Hc. unfold should_report. rewrite Hc. reflexivity.
  - intros b1 b2 cand H1 H2 Hc.
    rewrite !should_report_present by assumption. rewrite Hc. reflexivity.
  - intros. unfold should_report. rewrite !report_literal_checks. reflexivity.
  - intros. rewrite !should_report_present by apply report_literal_not_empty.
    rewrite !report_literal_checks. reflexivity.
Qed.

Lemma should_report_spec_witness :
  should_report report_a report_b = true
  ∧ should_report report_a
      (report_literal "id-1" "2024-05-01T10:00:00" "Linux" "5.15"
         (<["disk_encryption" := Unknown]> all_compliant)) = true.
Proof.
  destruct should_report_spec as (_ & Hiff & _ & _ & Hflip).
  split.
  - apply (Hiff report_a report_b); [reflexivity|].
    intros Heq. vm_compute in Heq. discriminate Heq.
  - apply (Hflip _ _ _ _ all_compliant "disk_encryption" Compliant Unknown);
      [reflexivity | discriminate].
Defined.

Lemma should_report_reads_only_checks_witness :
  should_report ∅ report_a = should_report ∅ report_c
  ∧ should_report report_a report_b = should_report report_c report_b.
Proof.
  destruct should_report_reads_only_checks as (Hcand & Hbase & _ & _).
  split.
  - apply (Hcand ∅ report_a report_c). reflexivity.
  - apply (Hbase report_a report_c report_b); reflexivity.
Defined.

(** ** Delivery *)

Lemma send_report_eq (h : Host) (data : dict) (s : Monitor) :
  ∃ s', send_report h data s
        = (Ok (acknowledged (endpoint_answer h s data)), s')
      ∧ last_report s'
        = (if acknowledged (endpoint_answer h s data) then data else last_report s)
      ∧ effects s' = effects s ++ [EvPost (api_endpoint s) data]
      ∧ api_endpoint s' = api_endpoint s
      ∧ check_interval s' = check_interval s
      ∧ machine_id s' = machine_id s.
Proof.
  unfold send_report, endpoint_answer, acknowledged, requests_post, m_try, m_bind,
    m_get, m_effect, m_lift_result, logger_info, logger_error, m_ret. simpl.
  destruct (http_post h (api_endpoint s) data (request_headers h)) as [resp|e]; simpl.
  - destruct (status_code resp =? 200); simpl; eexists; repeat split; reflexivity.
  - destruct (is_ConnectionError e); simpl; eexists; repeat split; reflexivity.
Qed.

(** C3. [send_report] never raises; it returns [True] exactly when the
    endpoint answered with status 200, and then the report sent becomes
    [self.last_report]; on any other status and on any exception of
    [requests.post] it returns [False] and [self.last_report] keeps its
    value. *)
Theorem send_report_spec (h : Host) (data : dict) (s : Monitor) :
  ∃ (b : bool) (s' : Monitor),
    send_report h data s = (Ok b, s')
    ∧ (b = true ↔ ∃ resp, endpoint_answer h s data = Ok resp
                          ∧ status_code resp = 200)
    ∧ (b = true → last_report s' = data)
    ∧ (b = false → last_report s' = last_report s).
Proof.
  destruct (send_report_eq h data s) as (s' & Heq & Hlast & _).
  exists (acknowledged (endpoint_answer h s data)), s'.
  split; [exact Heq|]. split; [|split].
  - unfold acknowledged. destruct (endpoint_answer h s data) as [resp|e].
    + rewrite Z.eqb_eq. split; [eauto|]. intros (r & Hr & H200). congruence.
    + split; [discriminate|]. intros (r & Hr & _). discriminate.
  - intros Hb. rewrite Hb in Hlast. exact Hlast.
  - intros Hb. rewrite Hb in Hlast. exact Hlast.
Qed.

Lemma send_report_spec_witness :
  ∃ s', send_report linux_acknowledged report_a monitor0 = (Ok true, s')
      ∧ last_report s' = report_a.
Proof.
  destruct (send_report_spec linux_acknowledged report_a monitor0)
    as (b & s' & Heq & Hiff & Hyes & _).
  assert (Hb : b = true).
  { apply Hiff. exists {| status_code := 200; text := "ok" |}.
    split; reflexivity. }
  subst b. exists s'. split; [exact Heq|]. apply Hyes. reflexivity.
Defined.

(** ** The probes return normally *)

Lemma w_try_ok {A} (m : W A) (handler : exn → W A) :
  (∀ e, w_ok (handler e)) → w_ok (w_try m handler).
Proof.
  intros Hh. destruct m as [[a|e] l]; [reflexivity|].
  unfold w_ok, w_try. specialize (Hh e). unfold w_ok in Hh.
  destruct (handler e) as [r l']. exact Hh.
Qed.

Lemma w_bind_ok {A B} (m : W A) (k : A → W B) :
  w_ok m → (∀ a, w_ok (k a)) → w_ok (w_bind m k).
Proof.
  intros Hm Hk. destruct m as [[a|e] l]; [|discriminate Hm].
  unfold w_ok, w_bind. specialize (Hk a). unfold w_ok in Hk.
  destruct (k a) as [r l']. exact Hk.
Qed.

Lemma w_ret_ok {A} (a : A) : w_ok (w_ret a).
Proof. reflexivity. Qed.

Lemma log_and_return_ok {A} (msg : string) (a : A) :
  w_ok (w_bind (w_error msg) (fun _ => w_ret a)).
Proof. reflexivity. Qed.

Create HintDb probes discriminated.
#[export] Hint Resolve w_ret_ok log_and_return_ok : probes.
#[export] Hint Extern 2 (w_ok (w_try _ _)) => (apply w_try_ok; intros) : probes.

Lemma check_disk_encryption_ok (h : Host) : w_ok (check_disk_encryption h).
Proof. unfold check_disk_encryption. repeat case_decide; auto with probes. Qed.

Lemma check_os_updates_ok (h : Host) : w_ok (check_os_updates h).
Proof. unfold check_os_updates. repeat case_decide; auto with probes. Qed.

Lemma check_antivirus_ok (h : Host) : w_ok (check_antivirus h).
Proof. unfold check_antivirus. repeat case_decide; auto with probes. Qed.

Lemma check_sleep_settings_ok `{PyBuiltins} (h : Host) :
  w_ok (check_sleep_settings h).
Proof.
  unfold check_sleep_settings. repeat case_decide; auto with probes.
  apply w_bind_ok; [unfold gsettings_block; auto with probes|].
  intros [v|]; [auto with probes|].
  apply w_bind_ok; [unfold xset_block; auto with probes|].
  intros [v|]; auto with probes.
Qed.

Lemma probe_value_ok (p : W tri) : w_ok p → fst p = Ok (probe_value p).
Proof.
  unfold w_ok, probe_value. destruct (fst p); [reflexivity|discriminate].
Qed.

Lemma m_probe_ok {A} (p : W tri) (k : tri → M A) (s : Monitor) :
  w_ok p →
  m_bind (m_probe p) k s = k (probe_value p) (add_logged (snd p) s).
Proof.
  intros Hp. unfold m_bind, m_probe. rewrite (probe_value_ok p Hp). reflexivity.
Qed.

(** ** The report builder *)

Lemma add_logged_twice (l1 l2 : list log_entry) (s : Monitor) :
  add_logged l2 (add_logged l1 s) = add_logged (l1 ++ l2) s.
Proof. unfold add_logged. simpl. rewrite app_assoc. reflexivity. Qed.

(** [collect_system_data] returns the report literal filled with the
    machine identifier and the host's posture, and only writes log
    records. *)
Lemma collect_system_data_eq `{PyBuiltins} (h : Host) (s : Monitor) :
  ∃ l, collect_system_data h s
       = (Ok (report_literal (machine_id s) (now_isoformat h)
                (platform_system h) (platform_version h) (posture h)),
          add_logged l s).
Proof.
  unfold collect_system_data.
  unfold m_bind at 1. unfold logger_info at 1.
  unfold m_bind at 1. unfold m_get at 1.
  rewrite m_probe_ok by apply check_disk_encryption_ok.
  rewrite m_probe_ok by apply check_os_updates_ok.
  rewrite m_probe_ok by apply check_antivirus_ok.
  rewrite m_probe_ok by apply check_sleep_settings_ok.
  rewrite !add_logged_twice. unfold m_ret. simpl. eexists. reflexivity.
Qed.

Lemma checks_literal_lookup (de ou av sl : tri) (k : string) :
  checks_literal de ou av sl !! k
  = if decide (k = "disk_encryption") then Some de
    else if decide (k = "os_updated") then Some ou
    else if decide (k = "antivirus_active") then Some av
    else if decide (k = "sleep_settings_ok") then Some sl
    else None.
Proof.
  unfold checks_literal. repeat case_decide; simplify_map_eq; reflexivity.
Qed.

Lemma checks_literal_dom (de ou av sl : tri) :
  dom (checks_literal de ou av sl) = list_to_set check_names.
Proof.
  unfold checks_literal, check_names. rewrite !dom_insert_L, dom_empty_L.
  simpl. set_solver.
Qed.

Lemma check_names_cases (P : string → Prop) :
  P "disk_encryption" → P "os_updated" → P "antivirus_active" →
  P "sleep_settings_ok" → ∀ k, k ∈ check_names → P k.
Proof.
  intros ???? k. unfold check_names. rewrite !elem_of_cons, elem_of_nil.
  intros [->|[->|[->|[->|[]]]]]; assumption.
Qed.

(** C4. Building a report always succeeds, on every host: the result has
    a [checks] entry whose keys are exactly the four check names, each
    mapped to [True], [False] or [None]; on a host where every probe
    answers [None] the report is built all the same. *)
Theorem collect_system_data_shape `{PyBuiltins} (h : Host) (s : Monitor) :
  ∃ (d : dict) (s' : Monitor) (ch : gmap string tri),
    collect_system_data h s = (Ok d, s')
    ∧ d !! "checks" = Some (VDict ch)
    ∧ dom ch = list_to_set check_names
    ∧ (∀ k, k ∈ check_names →
         ch !! k = Some Compliant ∨ ch !! k = Some NonCompliant
         ∨ ch !! k = Some Unknown)
    ∧ (∀ k, k ∉ check_names → ch !! k = None)
    ∧ (posture h = checks_literal Unknown Unknown Unknown Unknown →
       ∀ k, k ∈ check_names → ch !! k = Some Unknown).
Proof.
  destruct (collect_system_data_eq h s) as [l Heq].
  eexists _, _, (posture h). split; [exact Heq|].
  split; [reflexivity|].
  split; [unfold posture; apply checks_literal_dom|].
  split; [|split].
  - unfold posture. apply check_names_cases.
    + destruct (probe_value (check_disk_encryption h)) as [[|]|];
        [left | right; left | right; right]; reflexivity.
    + destruct (probe_value (check_os_updates h)) as [[|]|];
        [left | right; left | right; right]; reflexivity.
    + destruct (probe_value (check_antivirus h)) as [[|]|];
        [left | right; left | right; right]; reflexivity.
    + destruct (probe_value (check_sleep_settings h)) as [[|]|];
        [left | right; left | right; right]; reflexivity.
  - intros k Hk. apply not_elem_of_dom. unfold posture.
    rewrite checks_literal_dom. intros Hin. apply Hk. apply elem_of_list_to_set in Hin. exact Hin.
  - intros Hall. rewrite Hall. apply check_names_cases; reflexivity.
Qed.

Lemma collect_system_data_shape_witness :
  ∃ (d : dict) (s' : Monitor) (ch : gmap string tri),
    @collect_system_data decimal_builtins freebsd_host monitor0 = (Ok d, s')
    ∧ d !! "checks" = Some (VDict ch)
    ∧ ch !! "os_updated" = Some Unknown.
Proof.
  destruct (@collect_system_data_shape decimal_builtins freebsd_host monitor0)
    as (d & s' & ch & Heq & Hch & _ & _ & _ & Hunk).
  exists d, s', ch. split; [exact Heq|]. split; [exact Hch|].
  apply Hunk; [reflexivity|].
  unfold check_names. apply list_elem_of_further, list_elem_of_here.
Defined.

(** ** What the probes answer when they cannot find out *)

(** A command of the given list does not run. *)
Ltac spawn_fails Hr cmd :=
  let e := fresh "e" in
  let He := fresh "He" in
  destruct (Hr cmd) as [e He];
  [ rewrite !elem_of_cons; auto 10
  | unfold run, run_checked, w_lift, subprocess_run; rewrite He ].

Lemma check_disk_encryption_unavailable (h : Host) :
  (∀ cmd, cmd ∈ disk_encryption_cmds → spawn_raises h cmd) →
  fst (check_disk_encryption h) = Ok Unknown.
Proof.
  intros Hr. unfold disk_encryption_cmds in Hr. unfold check_disk_encryption.
  repeat case_decide; [| | |reflexivity].
  - spawn_fails Hr ["diskutil"; "apfs"; "list"]. reflexivity.
  - spawn_fails Hr ["manage-bde"; "-status"]. reflexivity.
  - spawn_fails Hr ["lsblk"; "-f"]. reflexivity.
Qed.

Lemma check_os_updates_unavailable (h : Host) :
  (∀ cmd, cmd ∈ os_updates_cmds → spawn_raises h cmd) →
  fst (check_os_updates h) = Ok Unknown.
Proof.
  intros Hr. unfold os_updates_cmds in Hr. unfold check_os_updates.
  repeat case_decide; [| | |reflexivity].
  - spawn_fails Hr ["softwareupdate"; "-l"]. reflexivity.
  - spawn_fails Hr windows_update_cmd. reflexivity.
  - spawn_fails Hr ["yum"; "check-update"; "--quiet"].
    spawn_fails Hr ["apt-get"; "update"; "-qq"].
    simpl. destruct (is_SubprocessError e0); reflexivity.
Qed.

Lemma gsettings_block_falls_through `{PyBuiltins} (h : Host) :
  match spawn h gsettings_cmd with
  | Raise _ => True
  | Ok c => returncode c ≠ 0 ∨ py_int (PyStr.strip (stdout c)) = None
  end →
  gsettings_block h = (Ok None, []).
Proof.
  unfold gsettings_block, run, w_lift, subprocess_run.
  destruct (spawn h gsettings_cmd) as [c|e]; [|reflexivity].
  intros [Hrc|Hint]; simpl.
  - apply Z.eqb_neq in Hrc. rewrite Hrc. reflexivity.
  - destruct (returncode c =? 0); [|reflexivity].
    unfold w_int. rewrite Hint. reflexivity.
Qed.

Lemma xset_scan_no_line `{PyBuiltins} (lines : list string) :
  List.find is_dpms_line lines = None → xset_scan lines = (Ok None, []).
Proof.
  induction lines as [|line rest IH]; [reflexivity|].
  simpl. unfold is_dpms_line at 1.
  destruct (PyStr.contains "timeout:" line && PyStr.contains "DPMS is" line);
    [discriminate|]. exact IH.
Qed.

Lemma xset_block_unknown `{PyBuiltins} (h : Host) :
  match spawn h ["xset"; "q"] with
  | Raise _ => True
  | Ok c => List.find is_dpms_line (PyStr.split_lines (stdout c)) = None
  end →
  fst (xset_block h) = Ok None.
Proof.
  unfold xset_block, run, w_lift, subprocess_run.
  destruct (spawn h ["xset"; "q"]) as [c|e]; [|reflexivity].
  intros Hnone. simpl. rewrite (xset_scan_no_line _ Hnone). reflexivity.
Qed.

Lemma check_sleep_settings_linux_unknown `{PyBuiltins} (h : Host) :
  platform_system h = "Linux" →
  match spawn h gsettings_cmd with
  | Raise _ => True
  | Ok c => returncode c ≠ 0 ∨ py_int (PyStr.strip (stdout c)) = None
  end →
  match spawn h ["xset"; "q"] with
  | Raise _ => True
  | Ok c => List.find is_dpms_line (PyStr.split_lines (stdout c)) = None
  end →
  fst (check_sleep_settings h) = Ok Unknown.
Proof.
  intros Hsys Hg Hx. unfold check_sleep_settings. rewrite Hsys. simpl.
  rewrite (gsettings_block_falls_through h Hg).
  pose proof (xset_block_unknown h Hx) as Hb.
  unfold w_bind. destruct (xset_block h) as [r l]. simpl in Hb. subst r.
  reflexivity.
Qed.

Lemma check_sleep_settings_unavailable `{PyBuiltins} (h : Host) :
  (∀ cmd, cmd ∈ sleep_settings_cmds → spawn_raises h cmd) →
  fst (check_sleep_settings h) = Ok Unknown.
Proof.
  intros Hr. unfold sleep_settings_cmds in Hr.
  destruct (decide (platform_system h = "Linux")) as [Hlin|Hlin].
  - destruct (Hr gsettings_cmd) as [e He]; [rewrite !elem_of_cons; auto 10|].
    destruct (Hr ["xset"; "q"]) as [e' He']; [rewrite !elem_of_cons; auto 10|].
    apply check_sleep_settings_linux_unknown; [exact Hlin | |].
    + rewrite He. exact I.
    + rewrite He'. exact I.
  - unfold check_sleep_settings.
    repeat case_decide; [| |contradiction|reflexivity].
    + spawn_fails Hr ["pmset"; "-g"]. reflexivity.
    + spawn_fails Hr windows_sleep_cmd. reflexivity.
Qed.

(** The scanner loop answers [True] exactly when one of the commands ran
    and exited with status 0; commands that raise count as absent. *)
Lemma av_loop_eq (h : Host) (cmds : list (list string)) :
  av_loop h cmds
  = (Ok (Some (existsb (fun cmd => match spawn h cmd with
                                   | Ok c => returncode c =? 0
                                   | Raise _ => false
                                   end) cmds)), []).
Proof.
  induction cmds as [|cmd rest IH]; [reflexivity|].
  simpl. unfold run, w_lift, subprocess_run.
  destruct (spawn h cmd) as [c|e]; simpl.
  - destruct (returncode c =? 0); [reflexivity|]. simpl. rewrite IH. reflexivity.
  - rewrite IH. reflexivity.
Qed.

Lemma check_antivirus_linux_no_scanner (h : Host) :
  platform_system h = "Linux" →
  (∀ cmd, cmd ∈ av_checks → spawn_raises h cmd) →
  check_antivirus h = (Ok NonCompliant, []).
Proof.
  intros Hsys Hr. unfold check_antivirus. rewrite Hsys, av_loop_eq.
  unfold av_checks in *. simpl.
  spawn_fails Hr ["clamav"; "--version"]. clear He.
  spawn_fails Hr ["freshclam"; "--version"]. clear He.
  spawn_fails Hr ["rkhunter"; "--version"]. clear He.
  spawn_fails Hr ["chkrootkit"; "--version"]. reflexivity.
Qed.

Lemma pmset_scan_eq `{PyBuiltins} (lines : list string) :
  pmset_scan lines
  = match List.find (PyStr.contains "displaysleep") lines with
    | Some line =>
        w_bind (w_item (PyStr.split line) 1)
          (fun field => w_bind (w_int field)
                          (fun minutes => w_ret (Some (minutes <=? 10))))
    | None => w_ret (Some false)
    end.
Proof.
  induction lines as [|line rest IH]; [reflexivity|].
  simpl. destruct (PyStr.contains "displaysleep" line); [reflexivity|exact IH].
Qed.

Lemma check_sleep_settings_macos_unreadable `{PyBuiltins} (h : Host) c line :
  platform_system h = "Darwin" →
  spawn h ["pmset"; "-g"] = Ok c →
  displaysleep_line (stdout c) = Some line →
  match PyStr.split line !! 1%nat with
  | Some field => py_int field = None
  | None => True
  end →
  fst (check_sleep_settings h) = Ok Unknown.
Proof.
  intros Hsys Hc Hline Hfield. unfold check_sleep_settings. rewrite Hsys. simpl.
  unfold run, w_lift, subprocess_run. rewrite Hc. simpl.
  rewrite pmset_scan_eq. unfold displaysleep_line in Hline. rewrite Hline.
  unfold w_item. destruct (PyStr.split line !! 1%nat) as [field|]; [|reflexivity].
  simpl. unfold w_int. rewrite Hfield. reflexivity.
Qed.

Lemma check_sleep_settings_windows_unreadable `{PyBuiltins} (h : Host) c :
  platform_system h = "Windows" →
  spawn h windows_sleep_cmd = Ok c →
  PyStr.truthy (PyStr.strip (stdout c)) = true →
  py_float (PyStr.strip (stdout c)) = None →
  fst (check_sleep_settings h) = Ok Unknown.
Proof.
  intros Hsys Hc Hne Hfl. unfold check_sleep_settings. rewrite Hsys. simpl.
  unfold run, w_lift, subprocess_run. rewrite Hc. simpl. rewrite Hne.
  unfold w_float. rewrite Hfl. reflexivity.
Qed.

(** C2, as stated, fails: on a Linux host where none of the scanner
    programs can be run (spawning raises [FileNotFoundError] for every
    command), [check_antivirus] answers [False] (NonCompliant), not
    [None]. *)
Lemma antivirus_unavailable_is_noncompliant :
  (∀ cmd, spawn linux_bare cmd = Raise FileNotFoundError)
  ∧ check_antivirus linux_bare = (Ok NonCompliant, [])
  ∧ fst (check_antivirus linux_bare) ≠ Ok Unknown.
Proof.
  split; [reflexivity|]. split; [reflexivity|]. discriminate.
Qed.

(** C2, amended.  Every probe answers [None] on an unrecognised platform.
    [check_disk_encryption], [check_os_updates] and [check_sleep_settings]
    answer [None] when their external commands cannot be run (spawning
    raises, whatever the exception), and so does [check_antivirus] on
    Windows.  [check_antivirus] is [True] on macOS without running
    anything, and on Linux a scanner that cannot be run is skipped, so
    with none available the answer is [False].  [check_sleep_settings]
    also answers [None] when the value it located is not a number (macOS:
    second field of the [displaysleep] line; Windows: the non-blank
    output), and on Linux when gsettings gives no usable value and xset
    raises or prints no DPMS timeout line. *)
Theorem probes_unknown_when_undetermined `{PyBuiltins} (h : Host) :
  (¬ recognized (platform_system h) →
     check_disk_encryption h = (Ok Unknown, [])
     ∧ check_os_updates h = (Ok Unknown, [])
     ∧ check_antivirus h = (Ok Unknown, [])
     ∧ check_sleep_settings h = (Ok Unknown, []))
  ∧ ((∀ cmd, cmd ∈ disk_encryption_cmds → spawn_raises h cmd) →
       fst (check_disk_encryption h) = Ok Unknown)
  ∧ ((∀ cmd, cmd ∈ os_updates_cmds → spawn_raises h cmd) →
       fst (check_os_updates h) = Ok Unknown)
  ∧ ((∀ cmd, cmd ∈ sleep_settings_cmds → spawn_raises h cmd) →
       fst (check_sleep_settings h) = Ok Unknown)
  ∧ (platform_system h = "Windows" → spawn_raises h windows_defender_cmd →
       fst (check_antivirus h) = Ok Unknown)
  ∧ (platform_system h = "Darwin" → check_antivirus h = (Ok Compliant, []))
  ∧ (platform_system h = "Linux" →
       (∀ cmd, cmd ∈ av_checks → spawn_raises h cmd) →
       check_antivirus h = (Ok NonCompliant, []))
  ∧ (∀ c line,
       platform_system h = "Darwin" →
       spawn h ["pmset"; "-g"] = Ok c →
       displaysleep_line (stdout c) = Some line →
       match PyStr.split line !! 1%nat with
       | Some field => py_int field = None
       | None => True
       end →
       fst (check_sleep_settings h) = Ok Unknown)
  ∧ (∀ c,
       platform_system h = "Windows" →
       spawn h windows_sleep_cmd = Ok c →
       PyStr.truthy (PyStr.strip (stdout c)) = true →
       py_float (PyStr.strip (stdout c)) = None →
       fst (check_sleep_settings h) = Ok Unknown)
  ∧ (platform_system h = "Linux" →
       match spawn h gsettings_cmd with
       | Raise _ => True
       | Ok c => returncode c ≠ 0 ∨ py_int (PyStr.strip (stdout c)) = None
       end →
       match spawn h ["xset"; "q"] with
       | Raise _ => True
       | Ok c => List.find is_dpms_line (PyStr.split_lines (stdout c)) = None
       end →
       fst (check_sleep_settings h) = Ok Unknown).
Proof.
  split.
  { intros Hun. unfold recognized in Hun.
    unfold check_disk_encryption, check_os_updates, check_antivirus,
      check_sleep_settings.
    repeat case_decide; tauto. }
  split; [apply check_disk_encryption_unavailable|].
  split; [apply check_os_updates_unavailable|].
  split; [apply check_sleep_settings_unavailable|].
  split.
  { intros Hsys [e He]. unfold check_antivirus. rewrite Hsys. simpl.
    unfold run, w_lift, subprocess_run. rewrite He. reflexivity. }
  split.
  { intros Hsys. unfold check_antivirus. rewrite Hsys. reflexivity. }
  split; [apply check_antivirus_linux_no_scanner|].
  split; [intros c line; apply check_sleep_settings_macos_unreadable|].
  split; [intros c; apply check_sleep_settings_windows_unreadable|].
  apply check_sleep_settings_linux_unknown.
Qed.

Lemma probes_unknown_when_undetermined_witness :
  @check_sleep_settings decimal_builtins freebsd_host = (Ok Unknown, [])
  ∧ fst (check_disk_encryption linux_bare) = Ok Unknown
  ∧ fst (check_os_updates linux_bare) = Ok Unknown
  ∧ fst (@check_sleep_settings decimal_builtins linux_bare) = Ok Unknown
  ∧ fst (check_antivirus windows_locked) = Ok Unknown
  ∧ check_antivirus mac_odd_pmset = (Ok Compliant, [])
  ∧ check_antivirus linux_bare = (Ok NonCompliant, [])
  ∧ fst (@check_sleep_settings decimal_builtins mac_odd_pmset) = Ok Unknown
  ∧ fst (@check_sleep_settings decimal_builtins windows_odd) = Ok Unknown
  ∧ fst (@check_sleep_settings decimal_builtins linux_headless) = Ok Unknown.
Proof.
  destruct (@probes_unknown_when_undetermined decimal_builtins freebsd_host)
    as (Hfree & _).
  destruct (@probes_unknown_when_undetermined decimal_builtins linux_bare)
    as (_ & Hdisk & Hupd & Hsleep & _ & _ & Hav & _).
  destruct (@probes_unknown_when_undetermined decimal_builtins windows_locked)
    as (_ & _ & _ & _ & Hwin & _).
  destruct (@probes_unknown_when_undetermined decimal_builtins mac_odd_pmset)
    as (_ & _ & _ & _ & _ & Hmac & _ & Hpmset & _).
  destruct (@probes_unknown_when_undetermined decimal_builtins windows_odd)
    as (_ & _ & _ & _ & _ & _ & _ & _ & Hodd & _).
  destruct (@probes_unknown_when_undetermined decimal_builtins linux_headless)
    as (_ & _ & _ & _ & _ & _ & _ & _ & _ & Hhead).
  assert (Hbare : ∀ cmd, spawn_raises linux_bare cmd)
    by (intros cmd; exists FileNotFoundError; reflexivity).
  split.
  { apply Hfree. unfold recognized. simpl.
    intros [Hs|[Hs|Hs]]; discriminate Hs. }
  split; [apply Hdisk; intros cmd _; apply Hbare|].
  split; [apply Hupd; intros cmd _; apply Hbare|].
  split; [apply Hsleep; intros cmd _; apply Hbare|].
  split; [apply Hwin; [reflexivity | exists PermissionError; reflexivity]|].
  split; [apply Hmac; reflexivity|].
  split; [apply Hav; [reflexivity | intros cmd _; apply Hbare]|].
  split.
  { apply (Hpmset {| returncode := 0; stdout := " displaysleep never" |}
             " displaysleep never"); reflexivity. }
  split.
  { apply (Hodd {| returncode := 0; stdout := "n/a" |}); reflexivity. }
  apply Hhead; [reflexivity | simpl; left; discriminate | reflexivity].
Defined.

(** ** One checking cycle *)

Lemma same_config_refl (s : Monitor) : same_config s s.
Proof. repeat split. Qed.

Lemma same_config_trans (s1 s2 s3 : Monitor) :
  same_config s1 s2 → same_config s2 s3 → same_config s1 s3.
Proof.
  unfold same_config. intros (Ha & Hb & Hc) (Ha' & Hb' & Hc').
  repeat split; congruence.
Qed.

(** A cycle never raises.  When the gate is open it makes exactly one
    delivery attempt, and the baseline becomes the report sent if and only
    if the endpoint acknowledged it; when the gate is closed nothing is
    sent and the baseline stays. *)
Lemma check_cycle_eq `{PyBuiltins} (h : Host) (s : Monitor) :
  ∃ s', check_cycle h s = (Ok tt, s')
      ∧ same_config s s'
      ∧ (if should_report (last_report s) (report_of s h)
         then effects s' = effects s ++ [EvPost (api_endpoint s) (report_of s h)]
              ∧ last_report s'
                = (if acknowledged (endpoint_answer h s (report_of s h))
                   then report_of s h else last_report s)
         else effects s' = effects s ∧ last_report s' = last_report s).
Proof.
  unfold check_cycle. destruct (collect_system_data_eq h s) as [l Hc].
  unfold m_bind at 1. rewrite Hc. fold (report_of s h).
  unfold m_bind at 1. unfold should_report_m, m_bind, m_get, m_ret. simpl.
  destruct (should_report (last_report s) (report_of s h)).
  - destruct (send_report_eq h (report_of s h)
                (add_logged [(INFO, "Changes detected, sending report")]
                   (add_logged l s)))
      as (s' & Hs & Hlast & Heff & Ha & Hi & Hm).
    rewrite Hs. exists s'. split; [reflexivity|].
    split; [repeat split; assumption|].
    split; [exact Heff|exact Hlast].
  - unfold logger_info. eexists. split; [reflexivity|].
    split; [repeat split|]. split; reflexivity.
Qed.

(** [time.sleep] accepts exactly the lengths from 0 to [sleep_max]. *)
Lemma time_sleep_error_none `{PyBuiltins} (n : Z) :
  time_sleep_error n = None ↔ 0 ≤ n ≤ sleep_max.
Proof.
  unfold time_sleep_error.
  destruct (n <? - sleep_max) eqn:Hlow; destruct (sleep_max <? n) eqn:Hhigh;
    destruct (n <? 0) eqn:Hneg; simpl;
    rewrite ?Z.ltb_lt, ?Z.ltb_ge in *; split; (discriminate || lia || reflexivity).
Qed.

Lemma time_sleep_accepts `{PyBuiltins} (n : Z) (s : Monitor) :
  time_sleep_error n = None →
  time_sleep n s = (Ok tt, add_effect (EvSleep n) s).
Proof. intros Hn. unfold time_sleep. rewrite Hn. reflexivity. Qed.

Lemma time_sleep_refuses `{PyBuiltins} (n : Z) (e : exn) (s : Monitor) :
  time_sleep_error n = Some e → time_sleep n s = (Raise e, s).
Proof. intros Hn. unfold time_sleep. rewrite Hn. reflexivity. Qed.

Lemma sleepable_config `{PyBuiltins} (s s' : Monitor) :
  check_interval s' = check_interval s → sleepable s → sleepable s'.
Proof. unfold sleepable. intros ->. exact id. Qed.

(** A turn is its [try] part followed by the sleep: what the body raises
    is logged and dropped, what the sleep raises is the turn's outcome. *)
Lemma periodic_iteration_eq `{PyBuiltins} (body : M unit) (s : Monitor) :
  periodic_iteration body s
  = time_sleep (check_interval (snd (body s)))
      (match fst (body s) with
       | Ok _ => snd (body s)
       | Raise _ => add_logged [(ERROR, "Error in periodic check")] (snd (body s))
       end).
Proof.
  unfold periodic_iteration, m_bind, m_try, m_get, logger_error.
  destruct (body s) as [[[]|e] s1]; reflexivity.
Qed.

(** With an interval that [time.sleep] accepts the turn returns. *)
Lemma periodic_iteration_sleeps `{PyBuiltins} (body : M unit) (s : Monitor) :
  sleepable (snd (body s)) →
  periodic_iteration body s
  = match body s with
    | (Ok _, s1) => (Ok tt, add_effect (EvSleep (check_interval s1)) s1)
    | (Raise e, s1) =>
        (Ok tt, add_effect (EvSleep (check_interval s1))
                  (add_logged [(ERROR, "Error in periodic check")] s1))
    end.
Proof.
  intros Hsl. rewrite periodic_iteration_eq.
  rewrite time_sleep_accepts by exact Hsl.
  destruct (body s) as [[[]|e] s1]; reflexivity.
Qed.

Lemma sleeps_app (l1 l2 : list effect) : sleeps (l1 ++ l2) = sleeps l1 ++ sleeps l2.
Proof. unfold sleeps. apply omap_app. Qed.

Lemma posts_app (l1 l2 : list effect) : posts (l1 ++ l2) = posts l1 ++ posts l2.
Proof. unfold posts. apply omap_app. Qed.

Lemma should_report_same_checks (base c1 c2 : dict) :
  get_or_empty "checks" c1 = get_or_empty "checks" c2 →
  should_report base c1 = should_report base c2.
Proof. intros Hc. unfold should_report. rewrite Hc. reflexivity. Qed.

Lemma report_of_config `{PyBuiltins} (s s' : Monitor) (h : Host) :
  same_config s s' → report_of s' h = report_of s h.
Proof. intros (_ & _ & Hm). unfold report_of. rewrite Hm. reflexivity. Qed.

(** One turn of the loop around a checking cycle. *)
Lemma periodic_turn_eq `{PyBuiltins} (h : Host) (s : Monitor) :
  sleepable s →
  ∃ s', periodic_iteration (check_cycle h) s = (Ok tt, s')
      ∧ same_config s s'
      ∧ (if should_report (last_report s) (report_of s h)
         then effects s'
              = effects s ++ [EvPost (api_endpoint s) (report_of s h);
                              EvSleep (check_interval s)]
              ∧ last_report s'
                = (if acknowledged (endpoint_answer h s (report_of s h))
                   then report_of s h else last_report s)
         else effects s' = effects s ++ [EvSleep (check_interval s)]
              ∧ last_report s' = last_report s).
Proof.
  intros Hsl.
  destruct (check_cycle_eq h s) as (s1 & Hc & (Ha & Hi & Hm) & Hgate).
  rewrite periodic_iteration_sleeps
    by (rewrite Hc; exact (sleepable_config _ _ Hi Hsl)).
  rewrite Hc. eexists. split; [reflexivity|].
  split; [repeat split; assumption|].
  destruct (should_report (last_report s) (report_of s h));
    destruct Hgate as [Heff Hlast]; simpl; rewrite Heff, Hi.
  - rewrite <- app_assoc. split; [reflexivity|exact Hlast].
  - split; [reflexivity|exact Hlast].
Qed.

(** A turn that raises changes the baseline no more than one that
    returns: only the cycle inside it assigns [last_report]. *)
Lemma periodic_turn_baseline `{PyBuiltins} (h : Host) (s : Monitor) :
  last_report (snd (periodic_iteration (check_cycle h) s))
  = (if should_report (last_report s) (report_of s h)
     then if acknowledged (endpoint_answer h s (report_of s h))
          then report_of s h else last_report s
     else last_report s).
Proof.
  destruct (check_cycle_eq h s) as (s1 & Hc & _ & Hgate).
  rewrite periodic_iteration_eq, Hc. simpl.
  assert (Hlast : last_report s1
                  = (if should_report (last_report s) (report_of s h)
                     then if acknowledged (endpoint_answer h s (report_of s h))
                          then report_of s h else last_report s
                     else last_report s)).
  { destruct (should_report (last_report s) (report_of s h));
      destruct Hgate as [_ Hl]; exact Hl. }
  rewrite <- Hlast. unfold time_sleep.
  destruct (time_sleep_error (check_interval s1)); reflexivity.
Qed.

Lemma periodic_loop_cons `{PyBuiltins} (body : M unit) (rest : list (M unit))
    (s s1 : Monitor) :
  periodic_iteration body s = (Ok tt, s1) →
  periodic_loop (body :: rest) s = periodic_loop rest s1.
Proof. intros Hb. simpl. unfold m_bind. rewrite Hb. reflexivity. Qed.

(** C6. A cycle that passes the gate but whose delivery is not
    acknowledged leaves the baseline as it was, so the next cycle, on a
    host showing the same posture, passes the gate again and makes a new
    delivery attempt.  The interval is one [time.sleep] accepts, so that
    the loop reaches the next cycle. *)
Theorem failed_delivery_is_retried `{PyBuiltins} (h1 h2 : Host) (s : Monitor) :
  sleepable s →
  should_report (last_report s) (report_of s h1) = true →
  acknowledged (endpoint_answer h1 s (report_of s h1)) = false →
  posture h2 = posture h1 →
  ∃ s1 s2,
    periodic_iteration (check_cycle h1) s = (Ok tt, s1)
    ∧ last_report s1 = last_report s
    ∧ should_report (last_report s1) (report_of s1 h2) = true
    ∧ run_periodic_check [h1; h2] s = (Ok tt, s2)
    ∧ effects s2
      = effects s ++ [EvPost (api_endpoint s) (report_of s h1);
                      EvSleep (check_interval s);
                      EvPost (api_endpoint s) (report_of s h2);
                      EvSleep (check_interval s)].
Proof.
  intros Hsl Hgate Hfail Hpost.
  destruct (periodic_turn_eq h1 s Hsl) as (s1 & Ht1 & Hcfg1 & Hshape1).
  rewrite Hgate, Hfail in Hshape1. destruct Hshape1 as [Heff1 Hlast1].
  assert (Hgate2 : should_report (last_report s1) (report_of s1 h2) = true).
  { rewrite Hlast1, <- Hgate. apply should_report_same_checks.
    unfold report_of. rewrite !report_literal_checks, Hpost. reflexivity. }
  assert (Hsl1 : sleepable s1) by (apply (sleepable_config s), Hsl; apply Hcfg1).
  destruct (periodic_turn_eq h2 s1 Hsl1) as (s2 & Ht2 & Hcfg2 & Hshape2).
  rewrite Hgate2 in Hshape2. destruct Hshape2 as [Heff2 _].
  exists s1, s2. split; [exact Ht1|]. split; [exact Hlast1|].
  split; [exact Hgate2|]. split.
  - unfold run_periodic_check.
    change (check_cycle <$> [h1; h2]) with [check_cycle h1; check_cycle h2].
    rewrite (periodic_loop_cons _ _ _ _ Ht1), (periodic_loop_cons _ _ _ _ Ht2).
    reflexivity.
  - rewrite Heff2, Heff1, (report_of_config _ _ _ Hcfg1).
    destruct Hcfg1 as (-> & -> & _). rewrite <- app_assoc. reflexivity.
Qed.

Lemma failed_delivery_is_retried_witness :
  ∃ s2,
    @run_periodic_check decimal_builtins [linux_bare; linux_bare_later] monitor0
    = (Ok tt, s2)
    ∧ length (posts (effects s2)) = 2%nat.
Proof.
  destruct (@failed_delivery_is_retried decimal_builtins
              linux_bare linux_bare_later monitor0)
    as (s1 & s2 & _ & _ & _ & Hrun & Heff); [reflexivity..|].
  exists s2. split; [exact Hrun|]. rewrite Heff. reflexivity.
Defined.

(** ** The periodic loop *)

Lemma periodic_loop_sleeps `{PyBuiltins} (bodies : list (M unit)) :
  Forall keeps_schedule bodies →
  ∀ s, sleepable s →
    ∃ s', periodic_loop bodies s = (Ok tt, s')
        ∧ sleeps (effects s')
          = sleeps (effects s) ++ replicate (length bodies) (check_interval s)
        ∧ check_interval s' = check_interval s.
Proof.
  induction 1 as [|body rest Hbody _ IH]; intros s Hsl.
  - exists s. simpl. rewrite app_nil_r. repeat split.
  - destruct (Hbody s) as [Hsl0 Hint].
    assert (Hturn : ∃ s1, periodic_iteration body s = (Ok tt, s1)
                          ∧ sleeps (effects s1)
                            = sleeps (effects s) ++ [check_interval s]
                          ∧ check_interval s1 = check_interval s).
    { rewrite periodic_iteration_sleeps by exact (sleepable_config _ _ Hint Hsl).
      destruct (body s) as [[[]|e] s1]; simpl in Hsl0, Hint;
        eexists; (split; [reflexivity|]); simpl;
        rewrite sleeps_app, Hsl0, Hint; split; reflexivity. }
    destruct Hturn as (s1 & Ht & Hsl1 & Hint1).
    destruct (IH s1 (sleepable_config _ _ Hint1 Hsl)) as (s' & Hloop & Hsl' & Hint').
    exists s'. rewrite (periodic_loop_cons _ _ _ _ Ht).
    split; [exact Hloop|]. split; [|congruence].
    rewrite Hsl', Hsl1, Hint1, <- app_assoc. reflexivity.
Qed.

Lemma check_cycle_keeps_schedule `{PyBuiltins} (h : Host) :
  keeps_schedule (check_cycle h).
Proof.
  intros s. destruct (check_cycle_eq h s) as (s1 & Hc & (_ & Hi & _) & Hgate).
  rewrite Hc. simpl. split; [|exact Hi].
  destruct (should_report (last_report s) (report_of s h));
    destruct Hgate as [Heff _]; rewrite Heff; [|reflexivity].
  rewrite sleeps_app. simpl. apply app_nil_r.
Qed.

Lemma interrupted_keeps_schedule (work : M unit) (e : exn) :
  keeps_schedule work → keeps_schedule (interrupted work e).
Proof.
  intros Hw s. specialize (Hw s). unfold interrupted, m_bind, m_lift_result.
  destruct (work s) as [[[]|e'] s1]; exact Hw.
Qed.

(** C7, as stated, fails: started with [--interval -1] the loop runs one
    cycle, [time.sleep] refuses the negative length with [ValueError]
    outside the [try], and the exception ends the loop: nothing was
    slept and the second cycle is never started (one delivery attempt,
    where two cycles without a baseline would make two). *)
Lemma negative_interval_ends_the_loop :
  fst (@run_periodic_check decimal_builtins [linux_bare; linux_bare_later]
         monitor_negative_interval)
  = Raise ValueError
  ∧ sleeps (effects (snd (@run_periodic_check decimal_builtins
                            [linux_bare; linux_bare_later]
                            monitor_negative_interval))) = []
  ∧ length (posts (effects (snd (@run_periodic_check decimal_builtins
                                   [linux_bare; linux_bare_later]
                                   monitor_negative_interval)))) = 1%nat.
Proof. vm_compute. repeat split. Qed.

(** C7, amended.  Whatever the body of a turn raises is caught at the end
    of the turn and logged, and never is the outcome of the turn: the
    turn ends as the sleep that follows ends.  [time.sleep] accepts the
    lengths from 0 to the clock's limit.  With such an interval the turn
    returns, having slept for [check_interval] whether the body returned
    or raised, and the loop goes on with the next turn from the state in
    which the error was logged; over any number of turns, some of which
    may be cycles cut short by an exception, it sleeps once per turn for
    the full interval.  With an interval [time.sleep] refuses, the
    exception of the sleep ends the loop in its first turn. *)
Theorem periodic_check_contains_cycle_errors `{PyBuiltins} :
  (∀ (body : M unit) (s : Monitor),
     periodic_iteration body s
     = time_sleep (check_interval (snd (body s)))
         (match fst (body s) with
          | Ok _ => snd (body s)
          | Raise _ =>
              add_logged [(ERROR, "Error in periodic check")] (snd (body s))
          end))
  ∧ (∀ n : Z, time_sleep_error n = None ↔ 0 ≤ n ≤ sleep_max)
  ∧ (∀ (body : M unit) (rest : list (M unit)) (s : Monitor),
       sleepable (snd (body s)) →
       ∃ s', periodic_iteration body s = (Ok tt, s')
           ∧ effects s'
             = effects (snd (body s)) ++ [EvSleep (check_interval (snd (body s)))]
           ∧ logged s'
             = logged (snd (body s))
               ++ (if is_ok (fst (body s)) then []
                   else [(ERROR, "Error in periodic check")])
           ∧ last_report s' = last_report (snd (body s))
           ∧ periodic_loop (body :: rest) s = periodic_loop rest s')
  ∧ (∀ (bodies : list (M unit)) (s : Monitor),
       Forall keeps_schedule bodies → sleepable s →
       ∃ s', periodic_loop bodies s = (Ok tt, s')
           ∧ sleeps (effects s')
             = sleeps (effects s)
               ++ replicate (length bodies) (check_interval s))
  ∧ (∀ (h : Host) (e : exn),
       keeps_schedule (check_cycle h)
       ∧ keeps_schedule (interrupted (check_cycle h) e))
  ∧ (∀ (hosts : list Host) (s : Monitor),
       sleepable s →
       ∃ s', run_periodic_check hosts s = (Ok tt, s')
           ∧ sleeps (effects s')
             = sleeps (effects s)
               ++ replicate (length hosts) (check_interval s))
  ∧ (∀ (body : M unit) (rest : list (M unit)) (s : Monitor) (e : exn),
       time_sleep_error (check_interval (snd (body s))) = Some e →
       ∃ s', periodic_loop (body :: rest) s = (Raise e, s')
           ∧ effects s' = effects (snd (body s))).
Proof.
  split; [exact periodic_iteration_eq|].
  split; [exact time_sleep_error_none|].
  split.
  { intros body rest s Hsl.
    pose proof (periodic_iteration_sleeps body s Hsl) as Ht.
    destruct (body s) as [[[]|e] s1] eqn:Hb; simpl in *;
      eexists; (split; [exact Ht|]); simpl; rewrite ?app_nil_r;
      (split; [reflexivity|]); (split; [reflexivity|]);
      (split; [reflexivity|]); unfold m_bind; rewrite Ht; reflexivity. }
  split.
  { intros bodies s Hb Hsl.
    destruct (periodic_loop_sleeps bodies Hb s Hsl) as (s' & Hl & Hs & _). eauto. }
  split.
  { intros h e. split; [apply check_cycle_keeps_schedule|].
    apply interrupted_keeps_schedule, check_cycle_keeps_schedule. }
  split.
  { intros hosts s Hsl. unfold run_periodic_check.
    destruct (periodic_loop_sleeps (check_cycle <$> hosts)) with (s := s)
      as (s' & Hl & Hs & _).
    - apply Forall_fmap, Forall_forall. intros h _.
      apply check_cycle_keeps_schedule.
    - exact Hsl.
    - exists s'. rewrite length_fmap in Hs. split; assumption. }
  intros body rest s e He. simpl. unfold m_bind.
  rewrite periodic_iteration_eq, (time_sleep_refuses _ e) by exact He.
  eexists. split; [reflexivity|].
  destruct (fst (body s)); reflexivity.
Qed.

Lemma periodic_check_contains_cycle_errors_witness :
  (∃ s',
     @periodic_loop decimal_builtins
       [@check_cycle decimal_builtins linux_bare;
        interrupted (@check_cycle decimal_builtins linux_bare) ValueError;
        @check_cycle decimal_builtins linux_bare_later] monitor0
     = (Ok tt, s')
     ∧ sleeps (effects s') = [900; 900; 900])
  ∧ (∃ s',
       @periodic_iteration decimal_builtins
         (interrupted (@check_cycle decimal_builtins linux_bare) ValueError)
         monitor0
       = (Ok tt, s')
       ∧ last (logged s') = Some (ERROR, "Error in periodic check")
       ∧ @periodic_loop decimal_builtins
           [interrupted (@check_cycle decimal_builtins linux_bare) ValueError;
            @check_cycle decimal_builtins linux_bare_later] monitor0
         = @periodic_loop decimal_builtins
             [@check_cycle decimal_builtins linux_bare_later] s').
Proof.
  destruct (@periodic_check_contains_cycle_errors decimal_builtins)
    as (_ & _ & Hturn & Hloop & Hkeep & _).
  split.
  - destruct (Hloop [@check_cycle decimal_builtins linux_bare;
                     interrupted (@check_cycle decimal_builtins linux_bare) ValueError;
                     @check_cycle decimal_builtins linux_bare_later] monitor0)
      as (s' & Hrun & Hsleeps).
    + repeat constructor; apply (Hkeep _ ValueError).
    + reflexivity.
    + exists s'. split; [exact Hrun|exact Hsleeps].
  - destruct (Hturn (interrupted (@check_cycle decimal_builtins linux_bare) ValueError)
                [@check_cycle decimal_builtins linux_bare_later] monitor0)
      as (s' & Ht & _ & Hlog & _ & Hnext).
    + reflexivity.
    + exists s'. split; [exact Ht|]. split; [|exact Hnext].
      rewrite Hlog. apply last_snoc.
Defined.

(** ** The baseline before the first acknowledged delivery *)

Lemma init_attributes (env : IdEnv) (api : string) (interval : Z)
    (d d' : Disk) (m : Monitor) :
  init env api interval d = (Ok m, d') →
  last_report m = ∅ ∧ api_endpoint m = api ∧ check_interval m = interval
  ∧ logged m = [] ∧ effects m = [].
Proof.
  unfold init, i_bind, i_ret.
  destruct (_get_machine_id env false d) as [[mid|e] d1]; [|discriminate].
  destruct (_setup_logging env d1) as [[[]|e] d2]; [|discriminate].
  intros [= <- <-]. repeat split.
Qed.

(** [start] sends one ungated report and enters the loop. *)
Lemma start_eq `{PyBuiltins} (h0 : Host) (hosts : list Host) (s : Monitor) :
  ∃ s1, start h0 hosts s = run_periodic_check hosts s1
      ∧ same_config s s1
      ∧ effects s1 = effects s ++ [EvPost (api_endpoint s) (report_of s h0)]
      ∧ last_report s1
        = (if acknowledged (endpoint_answer h0 s (report_of s h0))
           then report_of s h0 else last_report s).
Proof.
  unfold start. unfold m_bind at 1 2 3 4, logger_info at 1 2 3 4. unfold m_bind at 1.
  unfold m_try. unfold m_bind at 1.
  match goal with
  | |- context [collect_system_data h0 ?st] =>
      destruct (collect_system_data_eq h0 st) as [l Hc]; rewrite Hc;
      change (machine_id st) with (machine_id s)
  end.
  fold (report_of s h0). unfold m_bind at 1.
  match goal with
  | |- context [send_report h0 ?d ?st] =>
      destruct (send_report_eq h0 d st) as (s1 & Hs & Hlast & Heff & Ha & Hi & Hm);
      rewrite Hs
  end.
  unfold m_ret. exists s1. split; [reflexivity|].
  split; [repeat split; assumption|]. split; [exact Heff|exact Hlast].
Qed.

(** A cycle without a baseline on a host that does not acknowledge: one
    delivery attempt, and still no baseline. *)
Lemma check_cycle_unacknowledged `{PyBuiltins} (h : Host) (s : Monitor) :
  last_report s = ∅ → never_acknowledges h →
  ∃ s', check_cycle h s = (Ok tt, s')
      ∧ last_report s' = ∅
      ∧ posts (effects s')
        = posts (effects s) ++ [(api_endpoint s, report_of s h)].
Proof.
  intros Hempty Hh.
  destruct (check_cycle_eq h s) as (s1 & Hc & _ & Hshape).
  rewrite Hempty in Hshape. simpl in Hshape.
  unfold endpoint_answer in Hshape. rewrite Hh in Hshape.
  destruct Hshape as [Heff Hlast].
  exists s1. split; [exact Hc|]. split; [exact Hlast|].
  rewrite Heff, posts_app. reflexivity.
Qed.

Lemma run_periodic_check_unacknowledged `{PyBuiltins} (hosts : list Host) :
  Forall never_acknowledges hosts →
  ∀ s, sleepable s → last_report s = ∅ →
    ∃ s', run_periodic_check hosts s = (Ok tt, s')
        ∧ last_report s' = ∅
        ∧ same_config s s'
        ∧ posts (effects s')
          = posts (effects s)
            ++ ((fun h => (api_endpoint s, report_of s h)) <$> hosts).
Proof.
  induction 1 as [|h rest Hh _ IH]; intros s Hsl Hempty.
  - exists s. simpl. rewrite app_nil_r. repeat split. exact Hempty.
  - destruct (periodic_turn_eq h s Hsl) as (s1 & Ht & Hcfg & Hshape).
    rewrite Hempty in Hshape. simpl in Hshape.
    unfold endpoint_answer in Hshape. rewrite Hh in Hshape.
    destruct Hshape as [Heff Hlast].
    assert (Hsl1 : sleepable s1) by (apply (sleepable_config s), Hsl; apply Hcfg).
    destruct (IH s1 Hsl1 Hlast) as (s' & Hrun & Hlast' & Hcfg' & Hposts).
    exists s'. split.
    { unfold run_periodic_check in *. rewrite fmap_cons.
      rewrite (periodic_loop_cons _ _ _ _ Ht). exact Hrun. }
    split; [exact Hlast'|].
    split; [exact (same_config_trans _ _ _ Hcfg Hcfg')|].
    rewrite Hposts, Heff, posts_app, fmap_cons, <- app_assoc. simpl.
    f_equal. f_equal.
    destruct Hcfg as (Ha & _ & Hm). rewrite Ha. unfold report_of. rewrite Hm.
    reflexivity.
Qed.

(** C9. [__init__] leaves the baseline empty and only an acknowledged
    delivery (status 200) assigns it, however the turn ends.  So as long
    as no delivery has been acknowledged the baseline is still empty, the
    gate answers true for every candidate, and every cycle makes a
    delivery attempt, whatever the posture observed: with an interval
    [time.sleep] accepts the loop over [hosts] makes one attempt per
    turn, and [start] one more before it. *)
Theorem baseline_empty_until_acknowledged `{PyBuiltins} :
  (∀ env api interval d d' m,
     init env api interval d = (Ok m, d') → last_report m = ∅)
  ∧ (∀ h s r s',
       periodic_iteration (check_cycle h) s = (r, s') →
       last_report s' ≠ last_report s →
       should_report (last_report s) (report_of s h) = true
       ∧ acknowledged (endpoint_answer h s (report_of s h)) = true)
  ∧ (∀ h s,
       last_report s = ∅ → never_acknowledges h →
       ∃ s', check_cycle h s = (Ok tt, s')
           ∧ last_report s' = ∅
           ∧ (∀ cand, should_report (last_report s') cand = true)
           ∧ posts (effects s')
             = posts (effects s) ++ [(api_endpoint s, report_of s h)])
  ∧ (∀ hosts s,
       sleepable s →
       last_report s = ∅ → Forall never_acknowledges hosts →
       ∃ s', run_periodic_check hosts s = (Ok tt, s')
           ∧ last_report s' = ∅
           ∧ (∀ cand, should_report (last_report s') cand = true)
           ∧ posts (effects s')
             = posts (effects s)
               ++ ((fun h => (api_endpoint s, report_of s h)) <$> hosts))
  ∧ (∀ h0 hosts s,
       sleepable s →
       last_report s = ∅ → Forall never_acknowledges (h0 :: hosts) →
       ∃ s', start h0 hosts s = (Ok tt, s')
           ∧ last_report s' = ∅
           ∧ (∀ cand, should_report (last_report s') cand = true)
           ∧ posts (effects s')
             = posts (effects s)
               ++ ((fun h => (api_endpoint s, report_of s h)) <$> h0 :: hosts)).
Proof.
  split.
  { intros env api interval d d' m Hi.
    apply (init_attributes _ _ _ _ _ _ Hi). }
  split.
  { intros h s r s' Ht Hne.
    pose proof (periodic_turn_baseline h s) as Hlast.
    rewrite Ht in Hlast. simpl in Hlast.
    destruct (should_report (last_report s) (report_of s h)); [|contradiction].
    destruct (acknowledged (endpoint_answer h s (report_of s h)));
      [split; reflexivity | contradiction]. }
  split.
  { intros h s Hempty Hh.
    destruct (check_cycle_unacknowledged h s Hempty Hh) as (s' & Hc & Hlast & Hp).
    exists s'. split; [exact Hc|]. split; [exact Hlast|].
    split; [|exact Hp]. intros cand. rewrite Hlast. reflexivity. }
  split.
  { intros hosts s Hsl Hempty Hno.
    destruct (run_periodic_check_unacknowledged hosts Hno s Hsl Hempty)
      as (s' & Hrun & Hlast & _ & Hposts).
    exists s'. split; [exact Hrun|]. split; [exact Hlast|].
    split; [|exact Hposts]. intros cand. rewrite Hlast. reflexivity. }
  intros h0 hosts s Hsl Hempty Hno.
  apply Forall_cons in Hno as [Hh0 Hno].
  destruct (start_eq h0 hosts s) as (s1 & Hstart & Hcfg & Heff & Hlast).
  unfold endpoint_answer in Hlast. rewrite Hh0, Hempty in Hlast.
  assert (Hsl1 : sleepable s1) by (apply (sleepable_config s), Hsl; apply Hcfg).
  destruct (run_periodic_check_unacknowledged hosts Hno s1 Hsl1 Hlast)
    as (s' & Hrun & Hlast' & _ & Hposts).
  exists s'. rewrite Hstart. split; [exact Hrun|]. split; [exact Hlast'|].
  split; [intros cand; rewrite Hlast'; reflexivity|].
  rewrite Hposts, Heff, posts_app, fmap_cons, <- app_assoc. simpl.
  f_equal. f_equal.
  destruct Hcfg as (Ha & _ & Hm). rewrite Ha. unfold report_of. rewrite Hm.
  reflexivity.
Qed.

Lemma baseline_empty_until_acknowledged_witness :
  (∃ m d', init env_ok "http://localhost:3000/api/health-reports" 900
             disk_with_id = (Ok m, d')
           ∧ last_report m = ∅)
  ∧ acknowledged
      (endpoint_answer linux_acknowledged monitor0
         (@report_of decimal_builtins monitor0 linux_acknowledged)) = true
  ∧ (∃ s', @start decimal_builtins linux_bare [linux_bare_later; linux_bare]
             monitor0 = (Ok tt, s')
           ∧ last_report s' = ∅
           ∧ length (posts (effects s')) = 3%nat).
Proof.
  destruct (@baseline_empty_until_acknowledged decimal_builtins)
    as (Hinit & Honly & _ & Hloop & Hstart).
  assert (Hbare : never_acknowledges linux_bare) by (intros ???; reflexivity).
  assert (Hlater : never_acknowledges linux_bare_later) by (intros ???; reflexivity).
  split; [|split].
  - destruct (init env_ok "http://localhost:3000/api/health-reports" 900
                disk_with_id) as [[m|e] d'] eqn:Hi.
    + exists m, d'. split; [reflexivity|]. exact (Hinit _ _ _ _ _ _ Hi).
    + vm_compute in Hi. discriminate Hi.
  - apply (Honly linux_acknowledged monitor0 (Ok tt)
             (snd (@periodic_iteration decimal_builtins
                     (@check_cycle decimal_builtins linux_acknowledged) monitor0))).
    + vm_compute. reflexivity.
    + intros Heq.
      apply (f_equal (fun m : dict => m !! "checks")) in Heq.
      vm_compute in Heq. discriminate Heq.
  - destruct (Hstart linux_bare [linux_bare_later; linux_bare] monitor0)
      as (s' & Hrun & Hlast & _ & Hposts).
    + reflexivity.
    + reflexivity.
    + repeat constructor; assumption.
    + exists s'. split; [exact Hrun|]. split; [exact Hlast|].
      rewrite Hposts. reflexivity.
Defined.

(** ** The identity store *)

(** With the identity file in place the method only reads. *)
Lemma get_machine_id_existing (env : IdEnv) (has_logger : bool) (d : Disk)
    (p c : string) :
  id_file_path env = Ok p →
  nodes d !! p = Some (File c) →
  is_Some (nodes d !! path_dirname env p) →
  open_read_error env p = None →
  _get_machine_id env has_logger d = (Ok (PyStr.strip c), d).
Proof.
  intros Hp Hfile Hdir Hread.
  unfold _get_machine_id, i_bind, i_lift, path_exists, read_file, i_ret.
  rewrite Hp. simpl.
  rewrite (bool_decide_eq_true_2 _ Hdir). simpl.
  rewrite bool_decide_eq_true_2 by (rewrite Hfile; eauto).
  rewrite Hread, Hfile. reflexivity.
Qed.

Lemma get_machine_id_times_existing (env : IdEnv) (has_logger : bool)
    (d : Disk) (v : string) (n : nat) :
  _get_machine_id env has_logger d = (Ok v, d) →
  get_machine_id_times env has_logger n d = (replicate n (Ok v), d).
Proof.
  intros Hone. induction n as [|n IH]; [reflexivity|].
  simpl. rewrite Hone, IH. reflexivity.
Qed.

(** The first call on a disk without identity file, when the file can be
    written: a fresh UUID is drawn, stored and returned. *)
Lemma get_machine_id_creates (env : IdEnv) (has_logger : bool) (d : Disk)
    (p : string) :
  id_file_path env = Ok p →
  nodes d !! p = None →
  is_Some (nodes d !! path_dirname env p) →
  open_write_error env p = None →
  _get_machine_id env has_logger d
  = (Ok (uuid4_str env (uuids_drawn d)),
     {| nodes := <[p := File (uuid4_str env (uuids_drawn d))]> (nodes d);
        uuids_drawn := S (uuids_drawn d);
        id_logged := id_logged d |}).
Proof.
  intros Hp Hfile Hdir Hwrite.
  unfold _get_machine_id, i_bind, i_lift, path_exists, i_ret, i_try, uuid4,
    write_file.
  rewrite Hp. simpl.
  rewrite (bool_decide_eq_true_2 _ Hdir). simpl.
  rewrite bool_decide_eq_false_2 by (rewrite Hfile; apply is_Some_None).
  simpl. rewrite Hwrite, Hfile. reflexivity.
Qed.

(** C8. Once the identity file exists, [_get_machine_id] returns its
    contents with the surrounding blanks removed and changes nothing: no
    UUID is drawn, nothing is written or logged, and any number of
    further calls return that same value.  In particular, after the call
    that created the file, every later call returns the identifier
    created. *)
Theorem get_machine_id_idempotent (env : IdEnv) (has_logger : bool) :
  (∀ (d : Disk) (p c : string),
     id_file_path env = Ok p →
     nodes d !! p = Some (File c) →
     is_Some (nodes d !! path_dirname env p) →
     open_read_error env p = None →
     _get_machine_id env has_logger d = (Ok (PyStr.strip c), d)
     ∧ ∀ n, get_machine_id_times env has_logger n d
            = (replicate n (Ok (PyStr.strip c)), d))
  ∧ (∀ (d : Disk) (p : string),
       id_file_path env = Ok p →
       nodes d !! p = None →
       is_Some (nodes d !! path_dirname env p) →
       open_write_error env p = None →
       open_read_error env p = None →
       PyStr.strip (uuid4_str env (uuids_drawn d)) = uuid4_str env (uuids_drawn d) →
       ∃ d1, _get_machine_id env has_logger d
             = (Ok (uuid4_str env (uuids_drawn d)), d1)
           ∧ ∀ n, get_machine_id_times env has_logger n d1
                  = (replicate n (Ok (uuid4_str env (uuids_drawn d))), d1)).
Proof.
  split.
  - intros d p c Hp Hfile Hdir Hread.
    pose proof (get_machine_id_existing env has_logger d p c Hp Hfile Hdir Hread)
      as Hone.
    split; [exact Hone|]. intros n.
    apply get_machine_id_times_existing, Hone.
  - intros d p Hp Hfile Hdir Hwrite Hread Hstrip.
    eexists. split; [apply (get_machine_id_creates env has_logger d p); assumption|].
    intros n. apply get_machine_id_times_existing.
    rewrite (get_machine_id_existing env has_logger _ p
               (uuid4_str env (uuids_drawn d))); simpl;
      [rewrite Hstrip; reflexivity | assumption | apply lookup_insert_eq
      | | assumption].
    destruct (decide (p = path_dirname env p)) as [Heq|Hne].
    + rewrite <- Heq, lookup_insert_eq. eauto.
    + rewrite lookup_insert_ne by exact Hne. exact Hdir.
Qed.

Lemma get_machine_id_idempotent_witness :
  get_machine_id_times env_ok true 3 disk_with_id
  = (replicate 3 (Ok "6f1c2a9e-58b4-4c1d-9d67-0a3e5b7c8d21"), disk_with_id)
  ∧ ∃ d1, _get_machine_id env_ok true disk_first_run
          = (Ok "6f1c2a9e-58b4-4c1d-9d67-0a3e5b7c8d21", d1)
        ∧ get_machine_id_times env_ok true 2 d1
          = (replicate 2 (Ok "6f1c2a9e-58b4-4c1d-9d67-0a3e5b7c8d21"), d1).
Proof.
  destruct (get_machine_id_idempotent env_ok true) as [Hread Hcreate].
  split.
  - apply (Hread disk_with_id "/home/alice/.system_health_id" stored_id);
      [reflexivity | reflexivity | vm_compute; eauto | reflexivity].
  - destruct (Hcreate disk_first_run "/home/alice/.system_health_id")
      as (d1 & Hfirst & Hnext);
      [reflexivity | reflexivity | vm_compute; eauto | reflexivity..|].
    exists d1. split; [exact Hfirst|]. apply Hnext.
Defined.

(** When the identity file cannot be written, the handler's call to
    [self.logger.error] decides the outcome: with a logger in place the
    error is logged and the fresh UUID returned; without one the handler
    itself raises [AttributeError]. *)
Lemma get_machine_id_write_failure (env : IdEnv) (has_logger : bool)
    (d : Disk) (p : string) (e : exn) :
  id_file_path env = Ok p →
  nodes d !! p = None →
  is_Some (nodes d !! path_dirname env p) →
  open_write_error env p = Some e →
  fst (_get_machine_id env has_logger d)
  = if has_logger then Ok (uuid4_str env (uuids_drawn d))
    else Raise AttributeError.
Proof.
  intros Hp Hfile Hdir Hwrite.
  unfold _get_machine_id, i_bind, i_lift, path_exists, i_ret, i_try, uuid4,
    write_file, self_logger_error.
  rewrite Hp. simpl.
  rewrite (bool_decide_eq_true_2 _ Hdir). simpl.
  rewrite bool_decide_eq_false_2 by (rewrite Hfile; apply is_Some_None).
  simpl. rewrite Hwrite. destruct has_logger; reflexivity.
Qed.

(** [__init__] calls [_get_machine_id] before it assigns [self.logger],
    so a failed write ends the construction of the monitor. *)
Lemma init_write_failure (env : IdEnv) (api : string) (interval : Z)
    (d : Disk) (p : string) (e : exn) :
  id_file_path env = Ok p →
  nodes d !! p = None →
  is_Some (nodes d !! path_dirname env p) →
  open_write_error env p = Some e →
  fst (init env api interval d) = Raise AttributeError.
Proof.
  intros Hp Hfile Hdir Hwrite.
  pose proof (get_machine_id_write_failure env false d p e Hp Hfile Hdir Hwrite)
    as Hraise.
  unfold init, i_bind. destruct (_get_machine_id env false d) as [r d1].
  simpl in Hraise. rewrite Hraise. reflexivity.
Qed.

(** C5, on the code.  First run in a home directory that cannot be
    written: the claim expects the fresh UUID with an error in the log;
    [__init__] raises [AttributeError] instead, because the handler logs
    through [self.logger], which [__init__] assigns only after
    [_get_machine_id] has returned.  With a logger in place the same
    method does what the claim says. *)
Theorem init_raises_when_identity_write_fails :
  fst (init env_readonly_home "http://localhost:3000/api/health-reports" 900
         disk_first_run)
  = Raise AttributeError
  ∧ _get_machine_id env_readonly_home true disk_first_run
    = (Ok "6f1c2a9e-58b4-4c1d-9d67-0a3e5b7c8d21",
       {| nodes := nodes disk_first_run; uuids_drawn := 1;
          id_logged := [(ERROR, "Failed to save machine ID")] |}).
Proof.
  split.
  - apply (init_write_failure env_readonly_home _ _ disk_first_run
             "/home/alice/.system_health_id" PermissionError);
      [reflexivity | reflexivity | vm_compute; eauto | reflexivity].
  - reflexivity.
Qed.


(** * Further properties of the code *)

(** ** Probes: what is logged and what is answered *)

Lemma silent_ret {A} (a : A) : silent (w_ret a).
Proof. reflexivity. Qed.

Lemma silent_lift {A} (r : result A) : silent (w_lift r).
Proof. reflexivity. Qed.

Lemma silent_bind {A B} (m : W A) (k : A → W B) :
  silent m → (∀ a, silent (k a)) → silent (w_bind m k).
Proof.
  unfold silent, w_bind. destruct m as [[a|e] l]; simpl; intros -> Hk; [|reflexivity].
  specialize (Hk a). destruct (k a) as [r l']. simpl in *. exact Hk.
Qed.

Lemma silent_try {A} (m : W A) (handler : exn → W A) :
  silent m → (∀ e, silent (handler e)) → silent (w_try m handler).
Proof.
  unfold silent, w_try. destruct m as [[a|e] l]; simpl; intros -> Hk; [reflexivity|].
  specialize (Hk e). destruct (handler e) as [r l']. simpl in *. exact Hk.
Qed.

Lemma silent_try_if {A} (c : exn → bool) (m : W A) (handler : exn → W A) :
  silent m → (∀ e, silent (handler e)) → silent (w_try_if c m handler).
Proof.
  unfold silent, w_try_if. destruct m as [[a|e] l]; simpl; intros -> Hk; [reflexivity|].
  destruct (c e); [|reflexivity].
  specialize (Hk e). destruct (handler e) as [r l']. simpl in *. exact Hk.
Qed.

Lemma silent_int `{PyBuiltins} (s : string) : silent (w_int s).
Proof. unfold w_int. destruct (py_int s); reflexivity. Qed.

Lemma silent_float `{PyBuiltins} (s : string) : silent (w_float s).
Proof. unfold w_float. destruct (py_float s); reflexivity. Qed.

Lemma silent_item (l : list string) (i : nat) : silent (w_item l i).
Proof. unfold w_item. destruct (l !! i); reflexivity. Qed.

Lemma silent_index (x : string) (l : list string) : silent (w_index x l).
Proof. unfold w_index. destruct (PyStr.index x l); reflexivity. Qed.

Lemma silent_run (h : Host) (cmd : list string) : silent (run h cmd).
Proof. reflexivity. Qed.

Lemma silent_run_checked (h : Host) (cmd : list string) : silent (run_checked h cmd).
Proof. reflexivity. Qed.

Create HintDb quiet discriminated.
#[export] Hint Resolve silent_ret silent_lift silent_int silent_float silent_item
  silent_index silent_run silent_run_checked : quiet.
#[export] Hint Extern 2 (silent (w_bind _ _)) => (apply silent_bind; [|intros]) : quiet.
#[export] Hint Extern 2 (silent (w_try_if _ _ _)) =>
  (apply silent_try_if; [|intros]) : quiet.
#[export] Hint Extern 2 (silent (w_try _ _)) => (apply silent_try; [|intros]) : quiet.
#[export] Hint Extern 3 (silent (if ?b then _ else _)) => destruct b : quiet.

(** The shape every guarded probe branch has: a silent body under a
    handler that logs one error and answers [None]. *)
Lemma guarded_branch (m : W tri) (msg : string) :
  silent m →
  w_try m (fun _ => w_bind (w_error msg) (fun _ => w_ret None))
  = match fst m with
    | Ok v => (Ok v, [])
    | Raise _ => (Ok Unknown, [(ERROR, msg)])
    end.
Proof.
  unfold silent. destruct m as [[v|e] l]; simpl; intros ->; reflexivity.
Qed.

Lemma tidy_guarded (m : W tri) (msg : string) :
  silent m →
  tidy (w_try m (fun _ => w_bind (w_error msg) (fun _ => w_ret None))).
Proof.
  intros Hm. rewrite (guarded_branch m msg Hm). unfold tidy.
  destruct (fst m) as [v|e]; eauto 10.
Qed.

Lemma tidy_ret (v : tri) : tidy (w_ret v).
Proof. unfold tidy, w_ret. eauto. Qed.

Lemma silent_pmset_scan `{PyBuiltins} (lines : list string) :
  silent (pmset_scan lines).
Proof.
  induction lines as [|line rest IH]; [reflexivity|].
  simpl. destruct (PyStr.contains "displaysleep" line); auto with quiet.
Qed.

Lemma silent_xset_scan `{PyBuiltins} (lines : list string) :
  silent (xset_scan lines).
Proof.
  induction lines as [|line rest IH]; [reflexivity|].
  simpl.
  destruct (PyStr.contains "timeout:" line && PyStr.contains "DPMS is" line);
    [|exact IH].
  apply silent_bind; [auto with quiet|]. intros i.
  destruct (i + 1 <? length (PyStr.split line))%nat; auto with quiet.
Qed.

Lemma silent_av_loop (h : Host) (cmds : list (list string)) :
  silent (av_loop h cmds).
Proof. rewrite av_loop_eq. reflexivity. Qed.

Lemma silent_gsettings_block `{PyBuiltins} (h : Host) :
  silent (gsettings_block h) ∧ w_ok (gsettings_block h).
Proof.
  split; unfold gsettings_block; [|auto with probes].
  apply silent_try; [|intros; apply silent_ret].
  apply silent_bind; [auto with quiet|]. intros c.
  destruct (returncode c =? 0); auto with quiet.
Qed.

Lemma tidy_disk_encryption (h : Host) : tidy (check_disk_encryption h).
Proof.
  unfold check_disk_encryption.
  repeat case_decide; try apply tidy_ret; apply tidy_guarded; auto with quiet.
Qed.

Lemma tidy_os_updates (h : Host) : tidy (check_os_updates h).
Proof.
  unfold check_os_updates.
  repeat case_decide; try apply tidy_ret; apply tidy_guarded; auto 10 with quiet.
Qed.

Lemma tidy_antivirus (h : Host) : tidy (check_antivirus h).
Proof.
  unfold check_antivirus.
  repeat case_decide; try apply tidy_ret; apply tidy_guarded.
  - apply silent_bind; [auto with quiet|]. intros c.
    destruct (PyStr.contains "True" (stdout c)); auto with quiet.
  - apply silent_av_loop.
Qed.

Lemma tidy_sleep_settings `{PyBuiltins} (h : Host) : tidy (check_sleep_settings h).
Proof.
  unfold check_sleep_settings.
  repeat case_decide; try apply tidy_ret.
  - apply tidy_guarded. apply silent_bind; [auto with quiet|].
    intros c. apply silent_pmset_scan.
  - apply tidy_guarded. apply silent_bind; [auto with quiet|].
    intros c. destruct (PyStr.truthy (PyStr.strip (stdout c))); auto with quiet.
  - destruct (silent_gsettings_block h) as [Hs Hok].
    unfold silent in Hs. unfold w_ok in Hok.
    destruct (gsettings_block h) as [[r|e] l]; simpl in *; [subst l|discriminate].
    destruct r as [v|]; [unfold tidy, w_bind, w_ret; simpl; eauto|].
    unfold xset_block.
    assert (Hbody : silent (w_bind (run h ["xset"; "q"])
                      (fun result => xset_scan (PyStr.split_lines (stdout result))))).
    { apply silent_bind; [auto with quiet|]. intros c. apply silent_xset_scan. }
    unfold silent in Hbody. unfold tidy, w_bind at 1, w_try.
    destruct (w_bind (run h ["xset"; "q"]) _) as [[r|e] l]; simpl in *; subst l.
    + destruct r as [v|]; simpl; eauto.
    + simpl. eauto 10.
Qed.

(** X1. Every probe returns normally, writes at most one log record, and
    writes one (an [ERROR]) only together with the answer [None]: a
    [True] or [False] answer never comes with an error in the log. *)
Theorem probes_log_only_with_unknown `{PyBuiltins} (h : Host) :
  ∀ p, p ∈ [check_disk_encryption h; check_os_updates h;
            check_antivirus h; check_sleep_settings h] →
    ∃ v l, p = (Ok v, l)
           ∧ (length l ≤ 1)%nat
           ∧ (l ≠ [] → v = Unknown ∧ count_errors l = 1%nat).
Proof.
  intros p Hp.
  assert (Ht : tidy p).
  { rewrite !elem_of_cons, elem_of_nil in Hp.
    destruct Hp as [->|[->|[->|[->|[]]]]];
      [apply tidy_disk_encryption | apply tidy_os_updates
      | apply tidy_antivirus | apply tidy_sleep_settings]. }
  destruct Ht as (v & l & -> & [->|(-> & msg & ->)]).
  - exists v, []. split; [reflexivity|]. split; [simpl; lia|]. congruence.
  - exists Unknown, [(ERROR, msg)]. split; [reflexivity|].
    split; [simpl; lia|]. intros _. split; reflexivity.
Qed.

Lemma probes_log_only_with_unknown_witness :
  ∃ v l, check_os_updates windows_locked = (Ok v, l)
         ∧ (length l ≤ 1)%nat
         ∧ (l ≠ [] → v = Unknown ∧ count_errors l = 1%nat).
Proof.
  apply (@probes_log_only_with_unknown decimal_builtins windows_locked).
  apply list_elem_of_further, list_elem_of_here.
Defined.

(** X2. On a recognised platform, when the disk tool completes, whatever
    its exit status, [check_disk_encryption] gives a definite answer
    decided by its output alone: the marker ("Encrypted" on macOS,
    "Protection On" on Windows, "LUKS" or "crypto" on Linux) is there or
    not.  The answer is [None] exactly when the platform is unrecognised
    or the tool could not be run. *)
Theorem check_disk_encryption_answer (h : Host) :
  (∀ c, platform_system h = "Darwin" →
        spawn h ["diskutil"; "apfs"; "list"] = Ok c →
        check_disk_encryption h
        = (Ok (Some (PyStr.contains "Encrypted" (stdout c))), []))
  ∧ (∀ c, platform_system h = "Windows" →
          spawn h ["manage-bde"; "-status"] = Ok c →
          check_disk_encryption h
          = (Ok (Some (PyStr.contains "Protection On" (stdout c))), []))
  ∧ (∀ c, platform_system h = "Linux" →
          spawn h ["lsblk"; "-f"] = Ok c →
          check_disk_encryption h
          = (Ok (Some (PyStr.contains "LUKS" (stdout c)
                       || PyStr.contains "crypto" (stdout c))), []))
  ∧ (fst (check_disk_encryption h) = Ok Unknown
     ↔ ¬ recognized (platform_system h)
       ∨ (platform_system h = "Darwin"
          ∧ spawn_raises h ["diskutil"; "apfs"; "list"])
       ∨ (platform_system h = "Windows"
          ∧ spawn_raises h ["manage-bde"; "-status"])
       ∨ (platform_system h = "Linux" ∧ spawn_raises h ["lsblk"; "-f"])).
Proof.
  unfold check_disk_encryption, recognized, spawn_raises, run, w_lift,
    subprocess_run.
  split; [|split; [|split]].
  - intros c Hs Hc. rewrite Hs, Hc. reflexivity.
  - intros c Hs Hc. rewrite Hs, Hc. reflexivity.
  - intros c Hs Hc. rewrite Hs, Hc. reflexivity.
  - destruct (decide (platform_system h = "Darwin")) as [Hd|Hd].
    { rewrite Hd. simpl.
      destruct (spawn h ["diskutil"; "apfs"; "list"]) as [c|e]; simpl.
      - split; [discriminate|].
        intros [Hn|[[_ [e He]]|[[Hx _]|[Hx _]]]];
          [exfalso; apply Hn; auto | discriminate..].
      - split; [|reflexivity]. intros _. right. left. eauto. }
    destruct (decide (platform_system h = "Windows")) as [Hw|Hw].
    { rewrite Hw. simpl.
      destruct (spawn h ["manage-bde"; "-status"]) as [c|e]; simpl.
      - split; [discriminate|].
        intros [Hn|[[Hx _]|[[_ [e He]]|[Hx _]]]];
          [exfalso; apply Hn; auto | discriminate..].
      - split; [|reflexivity]. intros _. right. right. left. eauto. }
    destruct (decide (platform_system h = "Linux")) as [Hl|Hl].
    { rewrite Hl. simpl.
      destruct (spawn h ["lsblk"; "-f"]) as [c|e]; simpl.
      - split; [discriminate|].
        intros [Hn|[[Hx _]|[[Hx _]|[_ [e He]]]]];
          [exfalso; apply Hn; auto | discriminate..].
      - split; [|reflexivity]. intros _. right. right. right. eauto. }
    split; [|reflexivity]. intros _. left. tauto.
Qed.

Lemma check_disk_encryption_answer_witness :
  check_disk_encryption linux_headless = (Ok NonCompliant, [])
  ∧ fst (check_disk_encryption freebsd_host) = Ok Unknown.
Proof.
  destruct (check_disk_encryption_answer linux_headless) as (_ & _ & Hlin & _).
  destruct (check_disk_encryption_answer freebsd_host) as (_ & _ & _ & Hunk).
  split.
  - apply (Hlin {| returncode := 1; stdout := "unable to open display" |});
      reflexivity.
  - apply Hunk. left. unfold recognized. simpl.
    intros [Hs|[Hs|Hs]]; discriminate Hs.
Defined.

(** X3. The Linux branch of [check_os_updates].  When both apt-get
    commands exit with status 0 the answer is the phrase match and yum is
    not asked.  When [apt-get update] exits non-zero or times out, the
    answer is whether [yum check-update] exits with 0 ([None] if yum
    cannot be run).  When [apt-get update] raises anything else, for
    instance because apt-get is not installed, yum is never tried and the
    answer is [None]. *)
Theorem check_os_updates_linux_fallback (h : Host) :
  platform_system h = "Linux" →
  (∀ c1 c2,
     spawn h ["apt-get"; "update"; "-qq"] = Ok c1 → returncode c1 = 0 →
     spawn h ["apt-get"; "-s"; "upgrade"] = Ok c2 → returncode c2 = 0 →
     check_os_updates h
     = (Ok (Some (PyStr.contains "0 upgraded, 0 newly installed" (stdout c2))),
        []))
  ∧ ((spawn h ["apt-get"; "update"; "-qq"] = Raise TimeoutExpired
      ∨ ∃ c1, spawn h ["apt-get"; "update"; "-qq"] = Ok c1 ∧ returncode c1 ≠ 0) →
     fst (check_os_updates h)
     = Ok (match spawn h ["yum"; "check-update"; "--quiet"] with
           | Ok c => Some (returncode c =? 0)
           | Raise _ => Unknown
           end))
  ∧ (∀ e, spawn h ["apt-get"; "update"; "-qq"] = Raise e →
          is_SubprocessError e = false →
          check_os_updates h
          = (Ok Unknown, [(ERROR, "Failed to check OS updates on Linux")])).
Proof.
  intros Hs. unfold check_os_updates, run, run_checked, w_lift, subprocess_run.
  rewrite Hs. simpl. split; [|split].
  - intros c1 c2 H1 Hr1 H2 Hr2. rewrite H1, H2, Hr1, Hr2. reflexivity.
  - intros [Ht|(c1 & H1 & Hr1)].
    + rewrite Ht. simpl.
      destruct (spawn h ["yum"; "check-update"; "--quiet"]); reflexivity.
    + rewrite H1. apply Z.eqb_neq in Hr1. rewrite Hr1. simpl.
      destruct (spawn h ["yum"; "check-update"; "--quiet"]); reflexivity.
  - intros e He Hne. rewrite He. simpl. rewrite Hne. reflexivity.
Qed.

Lemma check_os_updates_linux_fallback_witness :
  fst (check_os_updates linux_headless) = Ok NonCompliant
  ∧ check_os_updates linux_bare
    = (Ok Unknown, [(ERROR, "Failed to check OS updates on Linux")]).
Proof.
  destruct (check_os_updates_linux_fallback linux_headless) as (_ & Hyum & _);
    [reflexivity|].
  destruct (check_os_updates_linux_fallback linux_bare) as (_ & _ & Hmiss);
    [reflexivity|].
  split.
  - apply Hyum. right.
    exists {| returncode := 1; stdout := "unable to open display" |}.
    split; [reflexivity | discriminate].
  - apply (Hmiss FileNotFoundError); reflexivity.
Defined.

(** X4. On Linux [check_antivirus] never answers [None] and never logs:
    it answers [True] exactly when one of the four scanner commands can
    be run and exits with status 0, and [False] otherwise. *)
Theorem check_antivirus_linux_answer (h : Host) :
  platform_system h = "Linux" →
  ∃ b : bool,
    check_antivirus h = (Ok (Some b), [])
    ∧ (b = true ↔ ∃ cmd c, cmd ∈ av_checks ∧ spawn h cmd = Ok c
                            ∧ returncode c = 0).
Proof.
  intros Hs.
  exists (existsb (fun cmd => match spawn h cmd with
                              | Ok c => returncode c =? 0
                              | Raise _ => false
                              end) av_checks).
  split; [unfold check_antivirus; rewrite Hs, av_loop_eq; reflexivity|].
  rewrite existsb_exists. split.
  - intros (cmd & Hin & Hok). destruct (spawn h cmd) as [c|e] eqn:Hc;
      [|discriminate]. exists cmd, c. apply Z.eqb_eq in Hok.
    split; [apply list_elem_of_In; exact Hin|]. split; [exact Hc|exact Hok].
  - intros (cmd & c & Hin & Hc & Hrc). exists cmd.
    split; [apply list_elem_of_In; exact Hin|]. rewrite Hc. apply Z.eqb_eq, Hrc.
Qed.

Lemma check_antivirus_linux_answer_witness :
  ∃ b : bool, check_antivirus linux_headless = (Ok (Some b), []).
Proof.
  destruct (check_antivirus_linux_answer linux_headless) as (b & Hb & _);
    [reflexivity|].
  exists b. exact Hb.
Defined.

(** X5. On Windows [check_antivirus] asks Windows Security first: output
    containing "True" gives [True] and the product enumeration is not
    run.  Otherwise the answer is whether the enumeration printed
    anything but blanks, and [None] if it could not be run. *)
Theorem check_antivirus_windows_answer (h : Host) (c1 : completed) :
  platform_system h = "Windows" →
  spawn h windows_defender_cmd = Ok c1 →
  (PyStr.contains "True" (stdout c1) = true →
     check_antivirus h = (Ok Compliant, []))
  ∧ (PyStr.contains "True" (stdout c1) = false →
     fst (check_antivirus h)
     = Ok (match spawn h windows_av_product_cmd with
           | Ok c2 => Some (PyStr.truthy (PyStr.strip (stdout c2)))
           | Raise _ => Unknown
           end)).
Proof.
  intros Hs H1. unfold check_antivirus, run, w_lift, subprocess_run.
  rewrite Hs, H1. simpl. split; intros Ht; rewrite Ht; [reflexivity|].
  destruct (spawn h windows_av_product_cmd) as [c2|e]; [|reflexivity].
  simpl. f_equal. f_equal.
  destruct (PyStr.strip (stdout c2)); [reflexivity|]. simpl. reflexivity.
Qed.

Lemma check_antivirus_windows_answer_witness :
  fst (check_antivirus windows_odd) = Ok Compliant.
Proof.
  destruct (check_antivirus_windows_answer windows_odd
              {| returncode := 0; stdout := "n/a" |}) as [_ Hno];
    [reflexivity | reflexivity |].
  apply Hno. reflexivity.
Defined.

(** X6. On macOS [check_sleep_settings] reads only the first line of
    [pmset -g] that mentions [displaysleep]: with its second field the
    integer [n] the answer is [n <= 10], whatever follows that line.
    Without such a line the answer is [False]. *)
Theorem check_sleep_settings_macos_answer `{PyBuiltins} (h : Host) (c : completed) :
  platform_system h = "Darwin" →
  spawn h ["pmset"; "-g"] = Ok c →
  (∀ line field n,
     displaysleep_line (stdout c) = Some line →
     PyStr.split line !! 1%nat = Some field →
     py_int field = Some n →
     check_sleep_settings h = (Ok (Some (n <=? 10)), []))
  ∧ (displaysleep_line (stdout c) = None →
     check_sleep_settings h = (Ok NonCompliant, [])).
Proof.
  intros Hs Hc. unfold check_sleep_settings, run, w_lift, subprocess_run.
  rewrite Hs, Hc. simpl. rewrite pmset_scan_eq. unfold displaysleep_line.
  split.
  - intros line field n Hl Hf Hn. rewrite Hl. unfold w_item. rewrite Hf.
    simpl. unfold w_int. rewrite Hn. reflexivity.
  - intros Hl. rewrite Hl. reflexivity.
Qed.


Lemma check_sleep_settings_macos_answer_witness :
  @check_sleep_settings decimal_builtins (mac_with_pmset " displaysleep 10")
  = (Ok Compliant, [])
  ∧ @check_sleep_settings decimal_builtins (mac_with_pmset " sleep 1")
    = (Ok NonCompliant, []).
Proof.
  split.
  - refine (proj1 (@check_sleep_settings_macos_answer decimal_builtins
                     (mac_with_pmset " displaysleep 10")
                     {| returncode := 0; stdout := " displaysleep 10" |} _ _)
              " displaysleep 10" "10" 10 _ _ _); reflexivity.
  - refine (proj2 (@check_sleep_settings_macos_answer decimal_builtins
                     (mac_with_pmset " sleep 1")
                     {| returncode := 0; stdout := " sleep 1" |} _ _) _);
      reflexivity.
Defined.

(** X7. On Linux [check_sleep_settings] prefers gsettings: when it exits
    with status 0 and prints the integer [n], the answer is [n <= 600]
    and xset is not consulted.  A gsettings failure leaves no trace: when
    gsettings cannot be run and xset prints no DPMS timeout line, the
    answer is [None] and nothing is logged. *)
Theorem check_sleep_settings_linux_gsettings `{PyBuiltins} (h : Host) :
  platform_system h = "Linux" →
  (∀ c n,
     spawn h gsettings_cmd = Ok c → returncode c = 0 →
     py_int (PyStr.strip (stdout c)) = Some n →
     check_sleep_settings h = (Ok (Some (n <=? 600)), []))
  ∧ (∀ e c,
       spawn h gsettings_cmd = Raise e →
       spawn h ["xset"; "q"] = Ok c →
       List.find is_dpms_line (PyStr.split_lines (stdout c)) = None →
       check_sleep_settings h = (Ok Unknown, [])).
Proof.
  intros Hs. unfold check_sleep_settings. rewrite Hs. simpl. split.
  - intros c n Hc Hrc Hn.
    unfold gsettings_block, run, w_lift, subprocess_run. rewrite Hc. simpl.
    rewrite Hrc. simpl. unfold w_int. rewrite Hn. reflexivity.
  - intros e c He Hc Hnone.
    rewrite gsettings_block_falls_through by (rewrite He; exact I).
    unfold xset_block, run, w_lift, subprocess_run. rewrite Hc. simpl.
    rewrite (xset_scan_no_line _ Hnone). reflexivity.
Qed.

Lemma check_sleep_settings_linux_gsettings_witness :
  @check_sleep_settings decimal_builtins (gnome_desktop "300" 200)
  = (Ok Compliant, []).
Proof.
  destruct (@check_sleep_settings_linux_gsettings decimal_builtins
              (gnome_desktop "300" 200)) as [Hg _]; [reflexivity|].
  apply (Hg {| returncode := 0; stdout := "300" |} 300); reflexivity.
Defined.

(** ** Delivery and the gate together *)

(** X8. [send_report] makes exactly one POST, to [self.api_endpoint] and
    with the report it was given, never sleeps and never touches the
    configuration.  It writes exactly one [ERROR] record when the
    delivery is not acknowledged and none when it is; a connection error
    and any other exception are told apart in the log. *)
Theorem send_report_effects (h : Host) (data : dict) (s : Monitor) :
  ∃ s' l,
    send_report h data s = (Ok (acknowledged (endpoint_answer h s data)), s')
    ∧ effects s' = effects s ++ [EvPost (api_endpoint s) data]
    ∧ same_config s s'
    ∧ logged s' = logged s ++ l
    ∧ count_errors l
      = (if acknowledged (endpoint_answer h s data) then 0 else 1)%nat
    ∧ (∀ e, endpoint_answer h s data = Raise e →
            last l = Some (ERROR,
                           if is_ConnectionError e
                           then "Connection error while reporting to API"
                           else "Exception while reporting to API")).
Proof.
  unfold send_report, endpoint_answer, acknowledged, requests_post, m_try, m_bind,
    m_get, m_effect, m_lift_result, logger_info, logger_error, m_ret. simpl.
  destruct (http_post h (api_endpoint s) data (request_headers h)) as [resp|e]; simpl.
  - destruct (status_code resp =? 200); simpl;
      eexists _, _; (split; [reflexivity|]); simpl;
      (split; [reflexivity|]); (split; [repeat split|]);
      (split; [rewrite <- !app_assoc; reflexivity|]);
      (split; [reflexivity|]); intros e He; discriminate He.
  - destruct (is_ConnectionError e) eqn:Hce; simpl;
      eexists _, _; (split; [reflexivity|]); simpl;
      (split; [reflexivity|]); (split; [repeat split|]);
      (split; [rewrite <- !app_assoc; reflexivity|]);
      (split; [reflexivity|]);
      intros e' [= <-]; rewrite Hce; reflexivity.
Qed.

Lemma send_report_effects_witness :
  ∃ s' l,
    send_report freebsd_host report_a monitor0 = (Ok false, s')
    ∧ logged s' = logged monitor0 ++ l
    ∧ last l = Some (ERROR, "Connection error while reporting to API").
Proof.
  destruct (send_report_effects freebsd_host report_a monitor0)
    as (s' & l & Heq & _ & _ & Hlog & _ & Hlast).
  exists s', l. split; [exact Heq|]. split; [exact Hlog|].
  apply (Hlast ConnectionError). reflexivity.
Defined.

(** X9. Delivery and gate compose: after an acknowledged [send_report] of
    a non-empty report the gate is closed for every candidate with the
    same [checks]; after a delivery that was not acknowledged the gate
    answers as before.  An acknowledged empty payload does not count as a
    baseline: the gate stays open. *)
Theorem gate_after_send_report (h : Host) (data : dict) (s s' : Monitor) (b : bool) :
  send_report h data s = (Ok b, s') →
  (b = true → py_not data = false →
     ∀ cand, get_or_empty "checks" cand = get_or_empty "checks" data →
             should_report (last_report s') cand = false)
  ∧ (b = true → data = ∅ → ∀ cand, should_report (last_report s') cand = true)
  ∧ (b = false →
     ∀ cand, should_report (last_report s') cand
             = should_report (last_report s) cand).
Proof.
  intros Hsend.
  destruct (send_report_eq h data s) as (s1 & Heq & Hlast & _).
  rewrite Hsend in Heq. injection Heq as Hb <-.
  rewrite <- Hb in Hlast. split; [|split]; intros ->.
  - intros Hne cand Hc. rewrite Hlast, (should_report_present _ _ Hne), Hc.
    unfold py_ne. rewrite bool_decide_eq_true_2; reflexivity.
  - intros -> cand. rewrite Hlast. reflexivity.
  - intros cand. rewrite Hlast. reflexivity.
Qed.

Lemma gate_after_send_report_witness :
  should_report
    (last_report (snd (send_report linux_acknowledged report_a monitor0)))
    report_c = false.
Proof.
  refine (proj1 (gate_after_send_report linux_acknowledged report_a monitor0
                   (snd (send_report linux_acknowledged report_a monitor0))
                   true _) _ _ report_c _); reflexivity.
Defined.

(** ** The loop: when it delivers and what it delivers *)

Lemma should_report_between_reports `{PyBuiltins} (s : Monitor) (hb h : Host) :
  should_report (report_of s hb) (report_of s h)
  = negb (bool_decide (posture h = posture hb)).
Proof.
  unfold report_of.
  rewrite should_report_present by apply report_literal_not_empty.
  rewrite !report_literal_checks. unfold py_ne.
  generalize (posture h), (posture hb). intros a b. f_equal.
  apply bool_decide_ext. split; intros Heq; [injection Heq as Heq|]; congruence.
Qed.

(** X10. With a baseline in place and an interval [time.sleep] accepts,
    a turn of the loop makes a delivery attempt exactly when the posture
    observed differs from the posture in the baseline; the baseline then
    moves to the new report if and only if the endpoint acknowledges
    it. *)
Theorem turn_posts_iff_posture_changed `{PyBuiltins} (h hb : Host) (s : Monitor) :
  sleepable s →
  last_report s = report_of s hb →
  ∃ s', periodic_iteration (check_cycle h) s = (Ok tt, s')
      ∧ same_config s s'
      ∧ posts (effects s')
        = posts (effects s)
          ++ (if decide (posture h = posture hb) then []
              else [(api_endpoint s, report_of s h)])
      ∧ last_report s'
        = (if decide (posture h = posture hb) then last_report s
           else if acknowledged (endpoint_answer h s (report_of s h))
                then report_of s h else last_report s).
Proof.
  intros Hsl Hbase.
  destruct (periodic_turn_eq h s Hsl) as (s' & Ht & Hcfg & Hshape).
  exists s'. split; [exact Ht|]. split; [exact Hcfg|].
  rewrite Hbase, should_report_between_reports in Hshape.
  destruct (decide (posture h = posture hb)) as [Heq|Hne].
  - rewrite bool_decide_eq_true_2 in Hshape by exact Heq. simpl in Hshape.
    destruct Hshape as [Heff Hlast]. rewrite Heff, posts_app. simpl.
    split; [reflexivity|]. rewrite Hlast, Hbase. reflexivity.
  - rewrite bool_decide_eq_false_2 in Hshape by exact Hne. simpl in Hshape.
    destruct Hshape as [Heff Hlast]. rewrite Heff, posts_app. simpl.
    split; [reflexivity|]. rewrite Hlast, Hbase. reflexivity.
Qed.

Lemma run_periodic_check_steady `{PyBuiltins} (hb : Host) (hosts : list Host) :
  Forall (fun h => posture h = posture hb) hosts →
  ∀ s, sleepable s → last_report s = report_of s hb →
    ∃ s', run_periodic_check hosts s = (Ok tt, s')
        ∧ same_config s s'
        ∧ posts (effects s') = posts (effects s)
        ∧ last_report s' = last_report s.
Proof.
  induction 1 as [|h rest Hh _ IH]; intros s Hsl Hbase.
  - exists s. split; [reflexivity|]. split; [apply same_config_refl|].
    split; reflexivity.
  - destruct (periodic_turn_eq h s Hsl) as (s1 & Ht & Hcfg & Hshape).
    rewrite Hbase, should_report_between_reports in Hshape.
    rewrite bool_decide_eq_true_2 in Hshape by exact Hh. simpl in Hshape.
    destruct Hshape as [Heff Hlast].
    assert (Hposts : posts (effects s1) = posts (effects s)).
    { rewrite Heff, posts_app. simpl. apply app_nil_r. }
    assert (Hbase1 : last_report s1 = report_of s1 hb).
    { rewrite Hlast. symmetry. apply report_of_config, Hcfg. }
    assert (Hsl1 : sleepable s1) by (apply (sleepable_config s), Hsl; apply Hcfg).
    rewrite <- Hbase in Hlast.
    destruct (IH s1 Hsl1 Hbase1) as (s' & Hrun & Hcfg' & Hposts' & Hlast').
    exists s'. split.
    { unfold run_periodic_check in *. rewrite fmap_cons.
      rewrite (periodic_loop_cons _ _ _ _ Ht). exact Hrun. }
    split; [exact (same_config_trans _ _ _ Hcfg Hcfg')|].
    split; congruence.
Qed.

(** X11. Steady state, with an interval [time.sleep] accepts: when the
    first report of [start] is acknowledged and every later turn observes
    the same posture, that first report is the only delivery attempt ever
    made and it stays the baseline, whatever timestamps and versions the
    later turns see. *)
Theorem steady_posture_single_delivery `{PyBuiltins}
    (h0 : Host) (hosts : list Host) (s : Monitor) :
  sleepable s →
  acknowledged (endpoint_answer h0 s (report_of s h0)) = true →
  Forall (fun h => posture h = posture h0) hosts →
  ∃ s', start h0 hosts s = (Ok tt, s')
      ∧ posts (effects s')
        = posts (effects s) ++ [(api_endpoint s, report_of s h0)]
      ∧ last_report s' = report_of s h0.
Proof.
  intros Hsl Hack Hsame.
  destruct (start_eq h0 hosts s) as (s1 & Hstart & Hcfg & Heff & Hlast).
  rewrite Hack in Hlast.
  assert (Hbase1 : last_report s1 = report_of s1 h0).
  { rewrite Hlast. symmetry. apply report_of_config, Hcfg. }
  assert (Hsl1 : sleepable s1) by (apply (sleepable_config s), Hsl; apply Hcfg).
  destruct (run_periodic_check_steady h0 hosts Hsame s1 Hsl1 Hbase1)
    as (s' & Hrun & _ & Hposts & Hlast').
  exists s'. rewrite Hstart. split; [exact Hrun|].
  split; [|congruence].
  rewrite Hposts, Heff, posts_app. reflexivity.
Qed.

Lemma steady_posture_single_delivery_witness :
  ∃ s', @start decimal_builtins linux_acknowledged [linux_bare; linux_bare_later]
          monitor0 = (Ok tt, s')
      ∧ length (posts (effects s')) = 1%nat.
Proof.
  destruct (@steady_posture_single_delivery decimal_builtins linux_acknowledged
              [linux_bare; linux_bare_later] monitor0)
    as (s' & Hrun & Hposts & _).
  - reflexivity.
  - reflexivity.
  - repeat constructor.
  - exists s'. split; [exact Hrun|]. rewrite Hposts. reflexivity.
Defined.

Lemma turn_posts_iff_posture_changed_witness :
  ∃ s', @periodic_iteration decimal_builtins
          (@check_cycle decimal_builtins (gnome_desktop "300" 200))
          (set_last_report (@report_of decimal_builtins monitor0 linux_bare) monitor0)
        = (Ok tt, s')
      ∧ length (posts (effects s')) = 1%nat.
Proof.
  destruct (@turn_posts_iff_posture_changed decimal_builtins
              (gnome_desktop "300" 200) linux_bare
              (set_last_report (@report_of decimal_builtins monitor0 linux_bare)
                 monitor0))
    as (s' & Ht & _ & Hposts & _); [reflexivity | reflexivity |].
  exists s'. split; [exact Ht|]. rewrite Hposts. reflexivity.
Defined.

Lemma run_periodic_check_deliveries `{PyBuiltins} (hosts : list Host) :
  ∀ s, sleepable s → ∃ s' delivered,
    run_periodic_check hosts s = (Ok tt, s')
    ∧ same_config s s'
    ∧ sublist delivered hosts
    ∧ posts (effects s')
      = posts (effects s)
        ++ ((fun h => (api_endpoint s, report_of s h)) <$> delivered)
    ∧ (baseline_ok s → baseline_ok s').
Proof.
  induction hosts as [|h rest IH]; intros s Hsl.
  - exists s, []. split; [reflexivity|]. split; [apply same_config_refl|].
    split; [constructor|]. split; [simpl; rewrite app_nil_r; reflexivity|auto].
  - destruct (periodic_turn_eq h s Hsl) as (s1 & Ht & Hcfg & Hshape).
    assert (Hsl1 : sleepable s1) by (apply (sleepable_config s), Hsl; apply Hcfg).
    destruct (IH s1 Hsl1) as (s' & delivered & Hrun & Hcfg' & Hsub & Hposts & Hinv).
    assert (Hurl : api_endpoint s1 = api_endpoint s) by apply Hcfg.
    assert (Hrep : ∀ h', report_of s1 h' = report_of s h')
      by (intros h'; apply report_of_config, Hcfg).
    assert (Hmap : (fun h' => (api_endpoint s1, report_of s1 h')) <$> delivered
                   = (fun h' => (api_endpoint s, report_of s h')) <$> delivered).
    { apply list_fmap_ext. intros i h' _. rewrite Hurl, Hrep. reflexivity. }
    rewrite Hmap in Hposts.
    assert (Hloop : run_periodic_check (h :: rest) s = (Ok tt, s')).
    { unfold run_periodic_check in *. rewrite fmap_cons.
      rewrite (periodic_loop_cons _ _ _ _ Ht). exact Hrun. }
    destruct (should_report (last_report s) (report_of s h));
      destruct Hshape as [Heff Hlast].
    + exists s', (h :: delivered). split; [exact Hloop|].
      split; [exact (same_config_trans _ _ _ Hcfg Hcfg')|].
      split; [constructor; exact Hsub|]. split.
      * rewrite Hposts, Heff, posts_app, fmap_cons, <- app_assoc. reflexivity.
      * intros Hok. apply Hinv. unfold baseline_ok. rewrite Hlast.
        destruct (acknowledged (endpoint_answer h s (report_of s h))).
        -- right. exists h. symmetry. apply Hrep.
        -- destruct Hok as [He|[hb Hb]]; [left; exact He|].
           right. exists hb. rewrite Hb. symmetry. apply Hrep.
    + exists s', delivered. split; [exact Hloop|].
      split; [exact (same_config_trans _ _ _ Hcfg Hcfg')|].
      split; [constructor; exact Hsub|]. split.
      * rewrite Hposts, Heff, posts_app. simpl. rewrite app_nil_r. reflexivity.
      * intros Hok. apply Hinv. unfold baseline_ok. rewrite Hlast.
        destruct Hok as [He|[hb Hb]]; [left; exact He|].
        right. exists hb. rewrite Hb. symmetry. apply Hrep.
Qed.

(** X12. With an interval [time.sleep] accepts, the periodic loop makes
    at most one delivery attempt per turn, in turn order, and each
    attempt goes to the configured endpoint with the report built in that
    turn, which carries this monitor's identifier: the attempts are the
    reports of a sub-sequence of the hosts observed. *)
Theorem loop_deliveries_are_turn_reports `{PyBuiltins}
    (hosts : list Host) (s : Monitor) :
  sleepable s →
  ∃ s' delivered,
    run_periodic_check hosts s = (Ok tt, s')
    ∧ sublist delivered hosts
    ∧ (length delivered ≤ length hosts)%nat
    ∧ posts (effects s')
      = posts (effects s)
        ++ ((fun h => (api_endpoint s, report_of s h)) <$> delivered)
    ∧ (∀ h, report_of s h !! "machine_id" = Some (VStr (machine_id s))).
Proof.
  intros Hsl.
  destruct (run_periodic_check_deliveries hosts s Hsl)
    as (s' & delivered & Hrun & _ & Hsub & Hposts & _).
  exists s', delivered. split; [exact Hrun|]. split; [exact Hsub|].
  split; [apply sublist_length, Hsub|]. split; [exact Hposts|].
  intros h. reflexivity.
Qed.

Lemma loop_deliveries_are_turn_reports_witness :
  ∃ s' delivered,
    @run_periodic_check decimal_builtins [linux_bare; linux_bare_later] monitor0
    = (Ok tt, s')
    ∧ (length delivered ≤ 2)%nat
    ∧ posts (effects s')
      = (fun h => (api_endpoint monitor0, @report_of decimal_builtins monitor0 h))
        <$> delivered.
Proof.
  destruct (@loop_deliveries_are_turn_reports decimal_builtins
              [linux_bare; linux_bare_later] monitor0)
    as (s' & delivered & Hrun & _ & Hlen & Hposts & _); [reflexivity|].
  exists s', delivered. split; [exact Hrun|]. split; [exact Hlen|exact Hposts].
Defined.

(** X13. The baseline is always either empty or a complete report built
    by this monitor: with an interval [time.sleep] accepts, [start] and
    the loop keep that, so a non-empty baseline always has the machine
    identifier and a [checks] entry with exactly the four check names. *)
Theorem baseline_stays_well_formed `{PyBuiltins}
    (h0 : Host) (hosts : list Host) (s : Monitor) :
  sleepable s →
  baseline_ok s →
  (∃ s', run_periodic_check hosts s = (Ok tt, s') ∧ baseline_ok s')
  ∧ (∃ s', start h0 hosts s = (Ok tt, s') ∧ baseline_ok s'
           ∧ (last_report s' ≠ ∅ →
              last_report s' !! "machine_id" = Some (VStr (machine_id s))
              ∧ ∃ ch, last_report s' !! "checks" = Some (VDict ch)
                      ∧ dom ch = list_to_set check_names)).
Proof.
  intros Hsl Hok. split.
  - destruct (run_periodic_check_deliveries hosts s Hsl)
      as (s' & delivered & Hrun & _ & _ & _ & Hinv). eauto.
  - destruct (start_eq h0 hosts s) as (s1 & Hstart & Hcfg & _ & Hlast).
    assert (Hok1 : baseline_ok s1).
    { unfold baseline_ok. rewrite Hlast.
      destruct (acknowledged (endpoint_answer h0 s (report_of s h0))).
      - right. exists h0. symmetry. apply report_of_config, Hcfg.
      - destruct Hok as [He|[hb Hb]]; [left; exact He|].
        right. exists hb. rewrite Hb. symmetry. apply report_of_config, Hcfg. }
    assert (Hsl1 : sleepable s1) by (apply (sleepable_config s), Hsl; apply Hcfg).
    destruct (run_periodic_check_deliveries hosts s1 Hsl1)
      as (s' & delivered & Hrun & Hcfg' & _ & _ & Hinv).
    exists s'. rewrite Hstart. split; [exact Hrun|].
    specialize (Hinv Hok1). split; [exact Hinv|].
    intros Hne. destruct Hinv as [He|[hb Hb]]; [contradiction|].
    rewrite Hb. unfold report_of.
    destruct (same_config_trans _ _ _ Hcfg Hcfg') as (_ & _ & Hm). rewrite Hm.
    split; [reflexivity|]. exists (posture hb). split; [reflexivity|].
    unfold posture. apply checks_literal_dom.
Qed.

Lemma baseline_stays_well_formed_witness :
  ∃ s', @start decimal_builtins linux_acknowledged [linux_bare] monitor0
        = (Ok tt, s')
      ∧ @baseline_ok decimal_builtins s'.
Proof.
  destruct (@baseline_stays_well_formed decimal_builtins linux_acknowledged
              [linux_bare] monitor0) as [_ (s' & Hrun & Hok & _)].
  - reflexivity.
  - left. reflexivity.
  - exists s'. split; [exact Hrun|exact Hok].
Defined.

(** ** One-shot mode and the settings *)

(** X14. [--once]: the process makes exactly one delivery attempt,
    without asking the gate and without sleeping, and its exit status is
    0 exactly when the endpoint answered 200 and 1 otherwise, whatever
    the probes found. *)
Theorem run_once_exit_status `{PyBuiltins} (h : Host) (s : Monitor) :
  ∃ (code : Z) (s' : Monitor),
    run_once h s = (Ok code, s')
    ∧ (code = 0 ↔ acknowledged (endpoint_answer h s (report_of s h)) = true)
    ∧ (code = 0 ∨ code = 1)
    ∧ effects s' = effects s ++ [EvPost (api_endpoint s) (report_of s h)].
Proof.
  unfold run_once. destruct (collect_system_data_eq h s) as [l Hc].
  unfold m_bind at 1. rewrite Hc. fold (report_of s h).
  destruct (send_report_eq h (report_of s h) (add_logged l s))
    as (s' & Hs & _ & Heff & _).
  unfold m_bind, m_ret. rewrite Hs.
  change (endpoint_answer h (add_logged l s) (report_of s h))
    with (endpoint_answer h s (report_of s h)).
  exists (if acknowledged (endpoint_answer h s (report_of s h)) then 0 else 1), s'.
  split; [reflexivity|].
  destruct (acknowledged (endpoint_answer h s (report_of s h)));
    (split; [split; [reflexivity || discriminate | reflexivity || discriminate]|]);
    (split; [auto | exact Heff]).
Qed.

(** X15. Settings precedence.  A non-empty [--api] and a non-zero
    [--interval] are used as given and the configuration is not even
    looked at, so they work with a configuration file that is missing,
    unreadable or not a JSON object.  An empty [--api] and a zero
    [--interval] count as not given. *)
Theorem resolve_settings_command_line_first (args : Args) (f : config_file) :
  (∀ url n,
     arg_api args = Some url → url ≠ EmptyString →
     arg_interval args = Some n → n ≠ 0 →
     resolve_settings args f = Ok (JStr url, JInt n))
  ∧ (arg_api args = Some EmptyString →
     resolve_settings args f
     = resolve_settings {| arg_api := None; arg_interval := arg_interval args;
                           arg_once := arg_once args |} f)
  ∧ (arg_interval args = Some 0 →
     resolve_settings args f
     = resolve_settings {| arg_api := arg_api args; arg_interval := None;
                           arg_once := arg_once args |} f).
Proof.
  unfold resolve_settings. split; [|split].
  - intros url n Ha Hu Hi Hn. rewrite Ha, Hi. simpl.
    destruct url; [contradiction|]. simpl.
    apply Z.eqb_neq in Hn. rewrite Hn. reflexivity.
  - intros Ha. rewrite Ha. reflexivity.
  - intros Hi. rewrite Hi. reflexivity.
Qed.

Lemma resolve_settings_command_line_first_witness :
  resolve_settings {| arg_api := Some "http://collector/api";
                      arg_interval := Some 60; arg_once := false |}
    (ConfigPresent (Ok JNotObject))
  = Ok (JStr "http://collector/api", JInt 60).
Proof.
  refine (proj1 (resolve_settings_command_line_first _ _)
            "http://collector/api" 60 _ _ _ _);
    (reflexivity || discriminate).
Defined.

(** X16. Settings from the configuration.  Without command-line values
    each setting is the configuration's entry if there is one and the
    built-in default otherwise (the local collector URL, 900 seconds); a
    configuration file that is absent or fails to load counts as empty,
    the failure being printed and not raised.  A configuration that
    loads but is not a JSON object makes the lookup raise
    [AttributeError]. *)
Theorem resolve_settings_from_config (once : bool) :
  let none := {| arg_api := None; arg_interval := None; arg_once := once |} in
  (∀ fields,
     resolve_settings none (ConfigPresent (Ok (JObject fields)))
     = Ok (from_option id (JStr default_api_endpoint) (fields !! "api_endpoint"),
           from_option id (JInt 900) (fields !! "check_interval")))
  ∧ resolve_settings none ConfigAbsent
    = Ok (JStr "http://localhost:3000/api/health-reports", JInt 900)
  ∧ (∀ e, resolve_settings none (ConfigPresent (Raise e))
          = Ok (JStr "http://localhost:3000/api/health-reports", JInt 900)
          ∧ snd (load_config (ConfigPresent (Raise e))) = true)
  ∧ resolve_settings none (ConfigPresent (Ok JNotObject)) = Raise AttributeError.
Proof.
  simpl. split; [|split; [|split]].
  - intros fields. reflexivity.
  - reflexivity.
  - intros e. split; reflexivity.
  - reflexivity.
Qed.

(** ** The identity store, beyond the first run *)

(** X17. On Windows the identity file lives under [LOCALAPPDATA]; when
    the environment has no such variable [_get_machine_id] raises
    [KeyError] before it touches the disk, and so does the constructor. *)
Theorem get_machine_id_windows_needs_localappdata
    (env : IdEnv) (api : string) (interval : Z) (d : Disk) :
  id_system env = "Windows" →
  environ env !! "LOCALAPPDATA" = None →
  (∀ has_logger, _get_machine_id env has_logger d = (Raise KeyError, d))
  ∧ init env api interval d = (Raise KeyError, d).
Proof.
  intros Hsys Henv.
  assert (Hp : id_file_path env = Raise KeyError).
  { unfold id_file_path, environ_get. rewrite decide_True by exact Hsys.
    rewrite Henv. reflexivity. }
  assert (Hget : ∀ has_logger,
             _get_machine_id env has_logger d = (Raise KeyError, d)).
  { intros has_logger. unfold _get_machine_id, i_bind, i_lift.
    rewrite Hp. reflexivity. }
  split; [exact Hget|].
  unfold init, i_bind. rewrite Hget. reflexivity.
Qed.

Lemma get_machine_id_windows_needs_localappdata_witness :
  init env_windows_bare "http://localhost:3000/api/health-reports" 900
    disk_first_run
  = (Raise KeyError, disk_first_run).
Proof.
  apply (get_machine_id_windows_needs_localappdata env_windows_bare);
    reflexivity.
Defined.

(** X18. An identity file that is there is never replaced: whatever
    [_get_machine_id] returns, the node at the identity path is the one
    it found, no UUID is drawn and nothing is logged.  In particular a
    file that cannot be read makes the call raise that error; it does
    not fall back to a new identifier. *)
Theorem get_machine_id_keeps_existing_file
    (env : IdEnv) (has_logger : bool) (d : Disk) (p : string) :
  id_file_path env = Ok p →
  is_Some (nodes d !! p) →
  nodes (snd (_get_machine_id env has_logger d)) !! p = nodes d !! p
  ∧ uuids_drawn (snd (_get_machine_id env has_logger d)) = uuids_drawn d
  ∧ id_logged (snd (_get_machine_id env has_logger d)) = id_logged d
  ∧ (∀ e, open_read_error env p = Some e →
          is_Some (nodes d !! path_dirname env p) →
          _get_machine_id env has_logger d = (Raise e, d)).
Proof.
  intros Hp Hfile.
  unfold _get_machine_id, i_bind, i_lift, path_exists, makedirs, read_file, i_ret.
  rewrite Hp. simpl.
  destruct (decide (is_Some (nodes d !! path_dirname env p))) as [Hdir|Hdir].
  - rewrite (bool_decide_eq_true_2 _ Hdir). simpl.
    rewrite (bool_decide_eq_true_2 _ Hfile).
    destruct (open_read_error env p) as [e|] eqn:Hread.
    + repeat split. intros e' [= <-] _. reflexivity.
    + destruct (nodes d !! p) as [[c|]|] eqn:Hn; simpl; repeat split;
        try exact Hn; discriminate.
  - rewrite (bool_decide_eq_false_2 _ Hdir). simpl.
    destruct (makedirs_error env (path_dirname env p)) as [e|]; simpl.
    + repeat split. intros e' _ Hd. contradiction.
    + assert (Hne : path_dirname env p ≠ p).
      { intros Heq. apply Hdir. rewrite Heq. exact Hfile. }
      assert (Hfile' : is_Some (<[path_dirname env p := Dir]> (nodes d) !! p)).
      { rewrite lookup_insert_ne by exact Hne. exact Hfile. }
      rewrite (bool_decide_eq_true_2 _ Hfile'). cbn [nodes].
      rewrite lookup_insert_ne by exact Hne.
      destruct (open_read_error env p) as [e|]; simpl.
      * rewrite lookup_insert_ne by exact Hne. repeat split.
        intros e' _ Hd. contradiction.
      * destruct (nodes d !! p) as [[c|]|] eqn:Hn; simpl;
          rewrite ?lookup_insert_ne by exact Hne; repeat split;
          try exact Hn; intros e' _ Hd; contradiction.
Qed.

Lemma get_machine_id_keeps_existing_file_witness :
  _get_machine_id env_unreadable_id true disk_with_id
  = (Raise PermissionError, disk_with_id).
Proof.
  refine (proj2 (proj2 (proj2
            (get_machine_id_keeps_existing_file env_unreadable_id true
               disk_with_id "/home/alice/.system_health_id" _ _)))
            PermissionError _ _);
    vm_compute; eauto.
Defined.

Lemma get_machine_id_unsaved (env : IdEnv) (d : Disk) (p : string) (e : exn) :
  id_file_path env = Ok p →
  nodes d !! p = None →
  is_Some (nodes d !! path_dirname env p) →
  open_write_error env p = Some e →
  _get_machine_id env true d
  = (Ok (uuid4_str env (uuids_drawn d)),
     {| nodes := nodes d; uuids_drawn := S (uuids_drawn d);
        id_logged := id_logged d ++ [(ERROR, "Failed to save machine ID")] |}).
Proof.
  intros Hp Hfile Hdir Hwrite.
  unfold _get_machine_id, i_bind, i_lift, path_exists, i_ret, i_try, uuid4,
    write_file, self_logger_error.
  rewrite Hp. simpl.
  rewrite (bool_decide_eq_true_2 _ Hdir). simpl.
  rewrite bool_decide_eq_false_2 by (rewrite Hfile; apply is_Some_None).
  simpl. rewrite Hwrite. reflexivity.
Qed.

(** X19. An identifier that could not be saved is not stable: while
    [open(id_file, 'w')] raises, so that no identity file comes to exist,
    every call of [_get_machine_id] (on an object that has its logger)
    draws a new UUID, returns it, leaves the disk as it was and logs one
    error, so [n] calls return the next [n] UUIDs and log [n] errors.
    (A write that fails after [open] has created the file is another
    case, which this statement does not cover.) *)
Theorem unsaved_identity_changes_every_call
    (env : IdEnv) (p : string) (e : exn) (n : nat) :
  id_file_path env = Ok p →
  open_write_error env p = Some e →
  ∀ d : Disk,
    nodes d !! p = None →
    is_Some (nodes d !! path_dirname env p) →
    get_machine_id_times env true n d
    = ((fun k => Ok (uuid4_str env k)) <$> seq (uuids_drawn d) n,
       {| nodes := nodes d; uuids_drawn := (uuids_drawn d + n)%nat;
          id_logged := id_logged d
                       ++ replicate n (ERROR, "Failed to save machine ID") |}).
Proof.
  intros Hp Hwrite. induction n as [|n IH]; intros d Hfile Hdir.
  - simpl. rewrite Nat.add_0_r, app_nil_r. destruct d; reflexivity.
  - cbn [get_machine_id_times].
    rewrite (get_machine_id_unsaved env d p e Hp Hfile Hdir Hwrite).
    rewrite IH by assumption. simpl.
    rewrite <- app_assoc, Nat.add_succ_r. reflexivity.
Qed.

Lemma unsaved_identity_changes_every_call_witness :
  fst (get_machine_id_times env_readonly_home true 2 disk_first_run)
  = [Ok "6f1c2a9e-58b4-4c1d-9d67-0a3e5b7c8d21";
     Ok "b0e4d3f7-1a2c-4e5f-8a9b-c6d7e8f90123"].
Proof.
  rewrite (unsaved_identity_changes_every_call env_readonly_home
             "/home/alice/.system_health_id" PermissionError 2);
    [reflexivity | reflexivity | reflexivity | reflexivity | vm_compute; eauto].
Defined.

(** ** Logging set-up *)

Lemma setup_logging_cases (env : IdEnv) (d d' : Disk) :
  _setup_logging env d = (Ok tt, d') →
  ∃ d1,
    (d1 = d ∧ is_Some (nodes d !! logs_dir env)
     ∨ nodes d !! logs_dir env = None
       ∧ d1 = {| nodes := <[logs_dir env := Dir]> (nodes d);
                 uuids_drawn := uuids_drawn d; id_logged := id_logged d |})
    ∧ ((∃ c, nodes d1 !! log_file env = Some (File c) ∧ d' = d1)
       ∨ nodes d1 !! log_file env = None
         ∧ d' = {| nodes := <[log_file env := File EmptyString]> (nodes d1);
                   uuids_drawn := uuids_drawn d1; id_logged := id_logged d1 |}).
Proof.
  unfold _setup_logging, i_bind, path_exists, makedirs, file_handler, i_ret.
  fold (logs_dir env). fold (log_file env).
  destruct (decide (is_Some (nodes d !! logs_dir env))) as [Hdir|Hdir].
  - rewrite (bool_decide_eq_true_2 _ Hdir). simpl.
    destruct (open_append_error env (log_file env)); [discriminate|].
    destruct (nodes d !! log_file env) as [[c|]|] eqn:Hf; [| discriminate |];
      intros [= <-]; exists d; (split; [left; split; [reflexivity|exact Hdir]|]).
    + left. exists c. split; [exact Hf|reflexivity].
    + right. split; [exact Hf|reflexivity].
  - rewrite (bool_decide_eq_false_2 _ Hdir). simpl.
    destruct (makedirs_error env (logs_dir env)); [discriminate|].
    destruct (open_append_error env (log_file env)); [discriminate|].
    simpl.
    destruct (<[logs_dir env := Dir]> (nodes d) !! log_file env) as [[c|]|] eqn:Hf;
      [| discriminate |]; intros [= <-]; eexists;
      (split; [right; split; [|reflexivity];
               destruct (nodes d !! logs_dir env) eqn:Hn;
                 [exfalso; apply Hdir; eauto | reflexivity]|]).
    + left. exists c. split; [exact Hf|reflexivity].
    + right. split; [exact Hf|reflexivity].
Qed.

Lemma setup_logging_preserves (env : IdEnv) (d d' : Disk) :
  _setup_logging env d = (Ok tt, d') →
  (∀ q, is_Some (nodes d !! q) → nodes d' !! q = nodes d !! q)
  ∧ uuids_drawn d' = uuids_drawn d
  ∧ id_logged d' = id_logged d.
Proof.
  intros Hrun.
  destruct (setup_logging_cases env d d' Hrun) as (d1 & H1 & H2).
  assert (Hd1 : (∀ q, is_Some (nodes d !! q) → nodes d1 !! q = nodes d !! q)
                ∧ uuids_drawn d1 = uuids_drawn d ∧ id_logged d1 = id_logged d).
  { destruct H1 as [[-> _]|[Hnone ->]]; [repeat split|].
    simpl. repeat split. intros q Hq. apply lookup_insert_ne.
    intros <-. rewrite Hnone in Hq. destruct Hq as [? [=]]. }
  destruct Hd1 as (Hn1 & Hu1 & Hl1).
  destruct H2 as [(c & _ & ->)|[Hnone ->]]; [repeat split; assumption|].
  simpl. repeat split; [|assumption..].
  intros q Hq. rewrite lookup_insert_ne; [apply Hn1, Hq|].
  intros <-. rewrite (Hn1 _ Hq) in Hnone. rewrite Hnone in Hq.
  destruct Hq as [? [=]].
Qed.

(** X20. When [_setup_logging] returns, the [logs] directory and the log
    file exist; a log file that was there keeps its contents (the
    handler appends), no node that existed is changed, and neither the
    UUID source nor the log are touched. *)
Theorem setup_logging_creates_log_file (env : IdEnv) (d d' : Disk) :
  _setup_logging env d = (Ok tt, d') →
  is_Some (nodes d' !! logs_dir env)
  ∧ (∃ c, nodes d' !! log_file env = Some (File c)
          ∧ ∀ c0, nodes d !! log_file env = Some (File c0) → c = c0)
  ∧ (∀ q, is_Some (nodes d !! q) → nodes d' !! q = nodes d !! q)
  ∧ uuids_drawn d' = uuids_drawn d
  ∧ id_logged d' = id_logged d.
Proof.
  intros Hrun.
  destruct (setup_logging_preserves env d d' Hrun) as (Hkeep & Hu & Hl).
  split; [|split; [|split; [exact Hkeep|split; assumption]]].
  - destruct (setup_logging_cases env d d' Hrun) as (d1 & H1 & H2).
    assert (Hdir1 : is_Some (nodes d1 !! logs_dir env)).
    { destruct H1 as [[-> Hdir]|[_ ->]]; [exact Hdir|].
      simpl. rewrite lookup_insert_eq. eauto. }
    destruct H2 as [(c & _ & ->)|[Hnone ->]]; [exact Hdir1|].
    simpl. rewrite lookup_insert_ne; [exact Hdir1|].
    intros Heq. rewrite <- Heq, Hnone in Hdir1. destruct Hdir1 as [? [=]].
  - destruct (setup_logging_cases env d d' Hrun) as (d1 & H1 & H2).
    destruct H2 as [(c & Hc & ->)|[Hnone ->]].
    + exists c. split; [exact Hc|]. intros c0 Hc0.
      assert (Hsame : nodes d1 !! log_file env = nodes d !! log_file env).
      { destruct H1 as [[-> _]|[Hn ->]]; [reflexivity|].
        simpl. apply lookup_insert_ne. intros Heq.
        rewrite Heq, Hc0 in Hn. discriminate. }
      rewrite Hsame, Hc0 in Hc. congruence.
    + exists EmptyString. simpl. split; [apply lookup_insert_eq|].
      intros c0 Hc0. exfalso.
      destruct H1 as [[-> _]|[Hn ->]]; [congruence|].
      simpl in Hnone. rewrite lookup_insert_ne in Hnone; [congruence|].
      intros Heq. rewrite Heq, Hc0 in Hn. discriminate.
Qed.

Lemma setup_logging_creates_log_file_witness :
  ∃ c, nodes (snd (_setup_logging env_ok disk_first_run)) !! log_file env_ok
       = Some (File c).
Proof.
  destruct (setup_logging_creates_log_file env_ok disk_first_run
              (snd (_setup_logging env_ok disk_first_run)))
    as (_ & (c & Hc & _) & _).
  - vm_compute. reflexivity.
  - exists c. exact Hc.
Defined.

(** ** The constructor *)

Lemma get_machine_id_tail_cases (env : IdEnv) (p : string) (d0 d1 : Disk)
    (mid : string) :
  i_bind (path_exists p) (fun file_there : bool =>
    if file_there then
      i_bind (read_file env p) (fun contents => i_ret (PyStr.strip contents))
    else
      i_bind (uuid4 env) (fun machine_id =>
      i_bind (i_try (write_file env p machine_id)
                (fun e => self_logger_error false "Failed to save machine ID"))
             (fun _ => i_ret machine_id))) d0
  = (Ok mid, d1) →
  id_logged d1 = id_logged d0
  ∧ ((∃ c, nodes d0 !! p = Some (File c) ∧ nodes d1 !! p = Some (File c)
           ∧ mid = PyStr.strip c ∧ uuids_drawn d1 = uuids_drawn d0)
     ∨ (nodes d0 !! p = None ∧ nodes d1 !! p = Some (File mid)
        ∧ mid = uuid4_str env (uuids_drawn d0)
        ∧ uuids_drawn d1 = S (uuids_drawn d0))).
Proof.
  unfold i_bind, path_exists, read_file, i_ret, i_try, uuid4, write_file,
    self_logger_error.
  destruct (nodes d0 !! p) as [[c|]|] eqn:Hn.
  - rewrite bool_decide_eq_true_2 by eauto. cbv beta.
    destruct (open_read_error env p); [discriminate|]. rewrite Hn.
    intros [= <- <-]. split; [reflexivity|]. left. exists c. auto.
  - rewrite bool_decide_eq_true_2 by eauto. cbv beta.
    destruct (open_read_error env p); [discriminate|]. rewrite Hn. discriminate.
  - rewrite bool_decide_eq_false_2 by (apply is_Some_None). cbv beta.
    cbn [nodes uuids_drawn id_logged].
    destruct (open_write_error env p); [discriminate|]. rewrite Hn.
    intros [= <- <-]. cbn [nodes uuids_drawn id_logged].
    split; [reflexivity|]. right. rewrite lookup_insert_eq. auto.
Qed.

(** X21. When the constructor returns, the identifier it holds is on
    disk: either the identity file was there and the identifier is its
    stripped contents (no UUID drawn), or it was absent, the identifier
    is the next UUID and the identity file now holds exactly that
    identifier.  In both cases the constructor has logged nothing. *)
Theorem init_identity_is_on_disk
    (env : IdEnv) (api : string) (interval : Z) (d d' : Disk) (m : Monitor) :
  init env api interval d = (Ok m, d') →
  id_logged d' = id_logged d
  ∧ ∃ p, id_file_path env = Ok p
      ∧ ((∃ c, nodes d !! p = Some (File c)
               ∧ nodes d' !! p = Some (File c)
               ∧ machine_id m = PyStr.strip c
               ∧ uuids_drawn d' = uuids_drawn d)
         ∨ (nodes d !! p = None
            ∧ nodes d' !! p = Some (File (machine_id m))
            ∧ machine_id m = uuid4_str env (uuids_drawn d)
            ∧ uuids_drawn d' = S (uuids_drawn d))).
Proof.
  unfold init. unfold i_bind at 1.
  destruct (_get_machine_id env false d) as [[mid|e] d1] eqn:Hget; [|discriminate].
  unfold i_bind, i_ret.
  destruct (_setup_logging env d1) as [[[]|e] d2] eqn:Hlog; [|discriminate].
  intros [= <- <-]. cbn [machine_id].
  destruct (setup_logging_preserves env d1 d2 Hlog) as (Hkeep & Hu & Hl).
  rewrite Hl, Hu. clear Hlog Hu Hl.
  unfold _get_machine_id in Hget. unfold i_bind at 1, i_lift in Hget.
  destruct (id_file_path env) as [p|e]; [|discriminate].
  set (dir := path_dirname env p) in *.
  assert (Hd1 : id_logged d1 = id_logged d
            ∧ ((∃ c, nodes d !! p = Some (File c)
                     ∧ nodes d1 !! p = Some (File c)
                     ∧ mid = PyStr.strip c
                     ∧ uuids_drawn d1 = uuids_drawn d)
               ∨ (nodes d !! p = None
                  ∧ nodes d1 !! p = Some (File mid)
                  ∧ mid = uuid4_str env (uuids_drawn d)
                  ∧ uuids_drawn d1 = S (uuids_drawn d)))).
  { unfold i_bind at 1, path_exists at 1 in Hget. cbv beta iota in Hget.
    destruct (bool_decide (is_Some (nodes d !! dir))) eqn:Hdir; cbn [negb] in Hget.
    - unfold i_bind at 1, i_ret at 1 in Hget. cbv beta iota in Hget.
      exact (get_machine_id_tail_cases env p d d1 mid Hget).
    - unfold i_bind at 1, makedirs in Hget.
      destruct (makedirs_error env dir); [discriminate|]. cbv beta iota in Hget.
      apply get_machine_id_tail_cases in Hget.
      cbn [nodes uuids_drawn id_logged] in Hget.
      destruct Hget as [Hl Hcase]. split; [exact Hl|].
      destruct (decide (dir = p)) as [Heq|Hne].
      + rewrite Heq, lookup_insert_eq in Hcase.
        destruct Hcase as [(c & [=] & _)|([=] & _)].
      + rewrite lookup_insert_ne in Hcase by exact Hne. exact Hcase. }
  destruct Hd1 as [Hl1 Hcase]. split; [exact Hl1|].
  exists p. split; [reflexivity|].
  destruct Hcase as [(c & Hc & Hc1 & Hm & Hu)|(Hnone & Hc1 & Hm & Hu)].
  - left. exists c. rewrite Hkeep by (rewrite Hc1; eauto). auto.
  - right. rewrite Hkeep by (rewrite Hc1; eauto). auto.
Qed.

Lemma init_identity_is_on_disk_witness :
  id_logged (snd (init env_ok "http://localhost:3000/api/health-reports" 900
                    disk_first_run))
  = id_logged disk_first_run.
Proof.
  refine (proj1 (init_identity_is_on_disk env_ok
                   "http://localhost:3000/api/health-reports" 900 disk_first_run
                   (snd (init env_ok "http://localhost:3000/api/health-reports"
                           900 disk_first_run))
                   {| api_endpoint := "http://localhost:3000/api/health-reports";
                      check_interval := 900; machine_id := sample_uuid 0;
                      last_report := ∅; logged := []; effects := [] |} _)).
  vm_compute. reflexivity.
Defined.

(** ** The gate on reports that lack [checks] *)

(** X22. The gate compares with [get('checks', {})], so between two
    non-empty reports it is symmetric, a report without [checks] and one
    whose [checks] is the empty dictionary are the same to it, and
    dropping a check from [checks] counts as a change just as changing
    its value does. *)
Theorem should_report_missing_checks (base cand : dict) :
  base ≠ ∅ →
  (cand ≠ ∅ → should_report base cand = should_report cand base)
  ∧ (base !! "checks" = None →
     (cand !! "checks" = None ∨ cand !! "checks" = Some (VDict ∅)) →
     should_report base cand = false)
  ∧ (∀ (ch : gmap string tri) (k : string),
       base !! "checks" = Some (VDict ch) → is_Some (ch !! k) →
       should_report base (<["checks" := VDict (delete k ch)]> cand) = true).
Proof.
  intros Hb.
  assert (Hnb : py_not base = false)
    by (unfold py_not; apply bool_decide_eq_false_2, Hb).
  split; [|split].
  - intros Hc.
    assert (Hnc : py_not cand = false)
      by (unfold py_not; apply bool_decide_eq_false_2, Hc).
    rewrite !should_report_present by assumption.
    unfold py_ne. f_equal. apply bool_decide_ext. split; congruence.
  - intros Hnone Hcand. rewrite should_report_present by exact Hnb.
    unfold get_or_empty. rewrite Hnone.
    destruct Hcand as [-> | ->]; reflexivity.
  - intros ch k Hch Hk. rewrite should_report_present by exact Hnb.
    apply py_ne_true. unfold get_or_empty.
    rewrite lookup_insert_eq, Hch. simpl. intros [= Heq].
    apply (f_equal (fun m : gmap string tri => m !! k)) in Heq.
    rewrite lookup_delete_eq in Heq. rewrite <- Heq in Hk.
    destruct Hk as [? [=]].
Qed.

Lemma should_report_missing_checks_witness :
  should_report report_a
    (<["checks" := VDict (delete "os_updated" all_compliant)]> report_a)
  = true.
Proof.
  refine (proj2 (proj2 (should_report_missing_checks report_a report_a _))
            all_compliant "os_updated" _ _).
  - intros Heq. apply (f_equal (fun m : dict => m !! "checks")) in Heq.
    vm_compute in Heq. discriminate Heq.
  - vm_compute. reflexivity.
  - vm_compute. eauto.
Defined.

(** ** The remaining probe branches *)

(** X23. On Windows [check_sleep_settings] looks at the output of the
    registry query only, not at its exit status: blank output gives
    [False], output that [float] parses gives [minutes <= 10], and output
    that [float] rejects gives [None] with one error logged. *)
Theorem check_sleep_settings_windows_answer `{PyBuiltins} (h : Host) (c : completed) :
  platform_system h = "Windows" →
  spawn h windows_sleep_cmd = Ok c →
  (PyStr.strip (stdout c) = EmptyString →
   check_sleep_settings h = (Ok NonCompliant, []))
  ∧ (∀ minutes,
       PyStr.strip (stdout c) ≠ EmptyString →
       py_float (PyStr.strip (stdout c)) = Some minutes →
       check_sleep_settings h = (Ok (Some (float_le minutes 10)), []))
  ∧ (PyStr.strip (stdout c) ≠ EmptyString →
     py_float (PyStr.strip (stdout c)) = None →
     check_sleep_settings h
     = (Ok Unknown, [(ERROR, "Failed to check sleep settings on Windows")])).
Proof.
  intros Hs Hc. unfold check_sleep_settings, run, w_lift, subprocess_run.
  rewrite Hs, Hc. simpl. split; [|split].
  - intros ->. reflexivity.
  - intros minutes Hne Hf.
    destruct (PyStr.strip (stdout c)) as [|a t]; [contradiction|].
    simpl. unfold w_float. rewrite Hf. reflexivity.
  - intros Hne Hf.
    destruct (PyStr.strip (stdout c)) as [|a t]; [contradiction|].
    simpl. unfold w_float. rewrite Hf. reflexivity.
Qed.

Lemma check_sleep_settings_windows_answer_witness :
  @check_sleep_settings decimal_builtins (windows_with_output " 5 " 1)
  = (Ok Compliant, [])
  ∧ @check_sleep_settings decimal_builtins (windows_with_output "  " 0)
    = (Ok NonCompliant, []).
Proof.
  split.
  - refine (proj1 (proj2 (@check_sleep_settings_windows_answer decimal_builtins
                            (windows_with_output " 5 " 1)
                            {| returncode := 1; stdout := " 5 " |} _ _))
              5 _ _); (reflexivity || discriminate).
  - refine (proj1 (@check_sleep_settings_windows_answer decimal_builtins
                     (windows_with_output "  " 0)
                     {| returncode := 0; stdout := "  " |} _ _) _);
      reflexivity.
Defined.

(** X24. On macOS and on Windows [check_os_updates] answers by one phrase
    in the tool's output and ignores its exit status, so a tool that runs
    but fails and prints nothing yields [False], not [None]; [None] comes
    only with a tool that could not be started. *)
Theorem check_os_updates_by_phrase (h : Host) :
  (platform_system h = "Darwin" →
   ∀ c, spawn h ["softwareupdate"; "-l"] = Ok c →
        check_os_updates h
        = (Ok (Some (PyStr.contains "No new software available" (stdout c))), []))
  ∧ (platform_system h = "Windows" →
     ∀ c, spawn h windows_update_cmd = Ok c →
          check_os_updates h
          = (Ok (Some (PyStr.contains "True" (stdout c))), []))
  ∧ (platform_system h = "Darwin" ∨ platform_system h = "Windows" →
     (∀ cmd c, spawn h cmd = Ok c → stdout c = EmptyString) →
     (∀ cmd, is_ok (spawn h cmd) = true) →
     check_os_updates h = (Ok NonCompliant, [])).
Proof.
  unfold check_os_updates, run, w_lift, subprocess_run.
  split; [|split].
  - intros Hs c Hc. rewrite Hs, Hc. reflexivity.
  - intros Hs c Hc. rewrite Hs, Hc. reflexivity.
  - intros [Hs|Hs] Hout Hok; rewrite Hs; simpl.
    + specialize (Hok ["softwareupdate"; "-l"]).
      destruct (spawn h ["softwareupdate"; "-l"]) as [c|e] eqn:Hc; [|discriminate].
      simpl. rewrite (Hout _ _ Hc). reflexivity.
    + specialize (Hok windows_update_cmd).
      destruct (spawn h windows_update_cmd) as [c|e] eqn:Hc; [|discriminate].
      simpl. rewrite (Hout _ _ Hc). reflexivity.
Qed.

Lemma check_os_updates_by_phrase_witness :
  check_os_updates (windows_with_output "True" 1) = (Ok Compliant, []).
Proof.
  exact (proj1 (proj2 (check_os_updates_by_phrase (windows_with_output "True" 1)))
           eq_refl {| returncode := 1; stdout := "True" |} eq_refl).
Defined.
